(** * amzn-s3-uploader: the two Lambda handlers, embedded and verified

    [lambda/presigned-url/lambda_function.py] plans an upload (one presigned
    put, or a multipart session with one presigned URL per part) and
    [lambda/complete-multipart/lambda_function.py] finalizes a multipart
    session, aborting it when S3 rejects the completion.

    The handlers are embedded as functions over Python values.  The S3
    client is an oracle answering each call from the calls made so far; every
    call and every [print] is recorded, in order, in a trace. *)

From Stdlib Require Import ZArith List String Ascii Bool Lia.
From Stdlib Require Import SpecFloat DecimalString DecimalZ DecimalPos.
Import ListNotations.

Local Open Scope string_scope.
Local Open Scope Z_scope.

Set Warnings "-register-all".

(** ** Python values *)

(** What [json.loads] can return, and what the handlers pass around.
    A [dict] is kept as its items in insertion order, each key once; a
    [float] is an IEEE 754 binary64 value. *)
Inductive json : Type :=
| JNull
| JBool (b : bool)
| JInt (z : Z)
| JFloat (f : spec_float)
| JStr (s : string)
| JList (l : list json)
| JObj (items : list (string * json)).

(** Exceptions: the handlers tell [botocore.exceptions.ClientError] from
    every other [Exception]; [kind] is the Python class name. *)
Inductive exn : Type :=
| ClientError (msg : string)
| Exception (kind msg : string).

Definition result (A : Type) : Type := (exn + A)%type.

Definition is_client_error (e : exn) : bool :=
  match e with ClientError _ => true | Exception _ _ => false end.

(** [bool(v)]: Python truthiness. *)
Definition truthy (v : json) : bool :=
  match v with
  | JNull => false
  | JBool b => b
  | JInt z => negb (z =? 0)
  | JFloat (S754_zero _) => false
  | JFloat _ => true
  | JStr s => negb (s =? "")%string
  | JList l => match l with [] => false | _ => true end
  | JObj items => match items with [] => false | _ => true end
  end.

(** [isinstance(v, list)]. *)
Definition isinstance_list (v : json) : bool :=
  match v with JList _ => true | _ => false end.

(** Lookup in the items of a dict. *)
Fixpoint lookup (k : string) (items : list (string * json)) : option json :=
  match items with
  | [] => None
  | (k', v) :: rest => if (k =? k')%string then Some v else lookup k rest
  end.

(** [d.get(k, default)]; only a dict has [get]. *)
Definition py_get (d : json) (k : string) (default : json) : result json :=
  match d with
  | JObj items =>
      inr (match lookup k items with Some v => v | None => default end)
  | _ => inl (Exception "AttributeError" "object has no attribute 'get'")
  end.

(** [d[k]] with a string key: [KeyError] on a dict without the key,
    [TypeError] on a string, a list and everything not subscriptable. *)
Definition py_getitem (d : json) (k : string) : result json :=
  match d with
  | JObj items =>
      match lookup k items with
      | Some v => inr v
      | None => inl (Exception "KeyError" k)
      end
  | JStr _ => inl (Exception "TypeError" "string indices must be integers")
  | JList _ => inl (Exception "TypeError" "list indices must be integers or slices")
  | _ => inl (Exception "TypeError" "object is not subscriptable")
  end.

(** ** Numbers: binary64 and the part count *)

Definition prec : Z := 53.
Definition emax : Z := 1024.

(** The float of a non-zero integer, before any rounding: mantissa [|z|],
    exponent [0]. *)
Definition float_of_Z (z : Z) : spec_float :=
  match z with
  | Z0 => S754_zero false
  | Zpos p => S754_finite false p 0
  | Zneg p => S754_finite true p 0
  end.

(** [a / b] on two ints: the correctly rounded quotient, [ZeroDivisionError]
    on a zero divisor, [OverflowError] when the quotient is beyond the
    largest float. *)
Definition int_truediv (a b : Z) : result spec_float :=
  if b =? 0 then inl (Exception "ZeroDivisionError" "division by zero")
  else
    match SFdiv prec emax (float_of_Z a) (float_of_Z b) with
    | S754_infinity _ =>
        inl (Exception "OverflowError" "integer division result too large for a float")
    | q => inr q
    end.

(** [x / b] on a float and an int that converts to a float exactly. *)
Definition float_truediv (x : spec_float) (b : Z) : result spec_float :=
  if b =? 0 then inl (Exception "ZeroDivisionError" "float division by zero")
  else inr (SFdiv prec emax x (float_of_Z b)).

(** [v / b] for an int [b]; [bool] is a subclass of [int]. *)
Definition py_truediv (v : json) (b : Z) : result spec_float :=
  match v with
  | JInt a => int_truediv a b
  | JBool a => int_truediv (if a then 1 else 0) b
  | JFloat x => float_truediv x b
  | _ => inl (Exception "TypeError" "unsupported operand type(s) for /")
  end.

(** Ceiling of [n / 2^k]. *)
Definition ceil_shift (n : Z) (k : Z) : Z := - ((- n) / 2 ^ k).

(** [math.ceil] on a float: the exact ceiling of a finite value. *)
Definition math_ceil (x : spec_float) : result Z :=
  match x with
  | S754_nan => inl (Exception "ValueError" "cannot convert float NaN to integer")
  | S754_infinity _ =>
      inl (Exception "OverflowError" "cannot convert float infinity to integer")
  | S754_zero _ => inr 0
  | S754_finite s m e =>
      let n := if s then Zneg m else Zpos m in
      inr (if 0 <=? e then n * 2 ^ e else ceil_shift n (- e))
  end.

(** [x > c] on a float and an int: Python compares the exact values. *)
Definition float_gt_Z (x : spec_float) (c : Z) : bool :=
  match x with
  | S754_nan => false
  | S754_infinity s => negb s
  | S754_zero _ => 0 >? c
  | S754_finite s m e =>
      let n := if s then Zneg m else Zpos m in
      if 0 <=? e then n * 2 ^ e >? c else n >? c * 2 ^ (- e)
  end.

(** [v > c] for an int [c]. *)
Definition py_gt (v : json) (c : Z) : result bool :=
  match v with
  | JInt z => inr (z >? c)
  | JBool b => inr ((if b then 1 else 0) >? c)
  | JFloat x => inr (float_gt_Z x c)
  | _ => inl (Exception "TypeError" "'>' not supported between these instances")
  end.

(** ** Strings: [int(s, 16)], [str(n)] and slicing *)

(** [s[:n]]. *)
Fixpoint slice_to (n : nat) (s : string) : string :=
  match n, s with
  | S n', String c rest => String c (slice_to n' rest)
  | _, _ => EmptyString
  end.

(** A [string] is the sequence of the code points of a Python [str], each
    below 256.

    The characters [int] strips from both ends of such a string: tab, line
    feed, vertical tab, form feed, carriage return and space, and the two
    further white-space characters U+0085 and U+00A0, which [int] turns
    into spaces before it reads the literal.  The separators U+001C to
    U+001F are not among them: [int] leaves them in place and fails. *)
Definition is_space (c : ascii) : bool :=
  let n := Z.of_nat (nat_of_ascii c) in
  ((9 <=? n) && (n <=? 13)) || (n =? 32) || (n =? 133) || (n =? 160).

Fixpoint lstrip (s : string) : string :=
  match s with
  | String c rest => if is_space c then lstrip rest else s
  | EmptyString => s
  end.

Fixpoint rev_append (s acc : string) : string :=
  match s with
  | String c rest => rev_append rest (String c acc)
  | EmptyString => acc
  end.

Definition strip (s : string) : string :=
  rev_append (lstrip (rev_append (lstrip s) "")) "".

Definition hex_value (c : ascii) : option Z :=
  let n := Z.of_nat (nat_of_ascii c) in
  if (48 <=? n) && (n <=? 57) then Some (n - 48)
  else if (97 <=? n) && (n <=? 102) then Some (n - 87)
  else if (65 <=? n) && (n <=? 70) then Some (n - 55)
  else None.

(** The digits of a base-16 literal: single underscores between digits
    only, at least one digit. *)
Fixpoint scan16 (s : string) (acc : Z) (after_digit : bool) : option Z :=
  match s with
  | EmptyString => if after_digit then Some acc else None
  | String c rest =>
      if (c =? "_")%char
      then (if after_digit then scan16 rest acc false else None)
      else match hex_value c with
           | Some d => scan16 rest (16 * acc + d) true
           | None => None
           end
  end.

(** What follows the sign: an optional [0x] or [0X], after which one
    underscore is allowed, then the digits. *)
Definition unsigned16 (s : string) : option Z :=
  match s with
  | String "0" (String x rest) =>
      if ((x =? "x") || (x =? "X"))%char
      then match rest with
           | String "_" rest' => scan16 rest' 0 false
           | _ => scan16 rest 0 false
           end
      else scan16 s 0 false
  | _ => scan16 s 0 false
  end.

(** [int(s, 16)] on a string: white space is stripped from both ends, then
    come a sign, the prefix and the digits.  Among the first 256 code
    points the only digits are the ASCII ones. *)
Definition int_base16 (s : string) : result Z :=
  let r :=
    match strip s with
    | String "+" rest => unsigned16 rest
    | String "-" rest => option_map Z.opp (unsigned16 rest)
    | t => unsigned16 t
    end in
  match r with
  | Some n => inr n
  | None => inl (Exception "ValueError" "invalid literal for int() with base 16")
  end.

(** [str(n)] on an int. *)
Definition str_of_int (n : Z) : string := NilZero.string_of_int (Z.to_int n).

(** [range(lo, hi)]. *)
Definition py_range (lo hi : Z) : list Z :=
  map (fun i => lo + Z.of_nat i) (seq 0 (Z.to_nat (hi - lo))).

(** ** The world of a handler: S3, [print] and the local variables *)

(** The client methods the handlers call, with their keyword arguments. *)
Inductive s3_call : Type :=
| create_multipart_upload (Bucket Key ContentType : json)
| generate_presigned_url (ClientMethod : string) (Params : list (string * json))
                         (ExpiresIn : Z)
| complete_multipart_upload (Bucket Key UploadId MultipartUpload : json)
| abort_multipart_upload (Bucket Key UploadId : json).

(** A piece of a printed f-string: literal text, or a formatted value. *)
Inductive fpart : Type :=
| Lit (s : string)
| Val (v : json)
| Exn (e : exn).

(** What a handler does to the outside, in order: a client call with its
    outcome, or a line on standard output. *)
Inductive effect : Type :=
| Call (c : s3_call) (r : result json)
| Print (line : list fpart).

(** The client: the outcome of a call, given everything done before it. *)
Definition s3 : Type := list effect -> s3_call -> result json.

Definition is_call (ef : effect) : bool :=
  match ef with Call _ _ => true | Print _ => false end.

Definition is_create (ef : effect) : bool :=
  match ef with Call (create_multipart_upload _ _ _) _ => true | _ => false end.

Definition is_presign (ef : effect) : bool :=
  match ef with Call (generate_presigned_url _ _ _) _ => true | _ => false end.

Definition is_complete (ef : effect) : bool :=
  match ef with Call (complete_multipart_upload _ _ _ _) _ => true | _ => false end.

Definition is_abort (ef : effect) : bool :=
  match ef with Call (abort_multipart_upload _ _ _) _ => true | _ => false end.

(** The calls of a trace. *)
Definition calls (t : list effect) : list effect := filter is_call t.

(** The state a handler runs in: its bound local variables (those an
    [except] block reads) and the trace so far. *)
Record world : Type := mkWorld {
  frame : list (string * json);
  trace : list effect
}.

(** A computation that may raise: state in, outcome and state out. *)
Definition M (A : Type) : Type := world -> result A * world.

Definition ret {A} (a : A) : M A := fun w => (inr a, w).

Definition raise {A} (e : exn) : M A := fun w => (inl e, w).

Definition bind {A B} (m : M A) (k : A -> M B) : M B :=
  fun w =>
    match m w with
    | (inr a, w') => k a w'
    | (inl e, w') => (inl e, w')
    end.

Declare Scope py_scope.
Delimit Scope py_scope with py.
Notation "x <- m ;; k" := (bind m (fun x => k))
  (at level 100, m at next level, right associativity) : py_scope.
Notation "m ;;; k" := (bind m (fun _ => k))
  (at level 100, right associativity) : py_scope.

(** An expression that may raise, evaluated without effect. *)
Definition eval {A} (r : result A) : M A :=
  match r with inr a => ret a | inl e => raise e end.

(** [name = v], for a variable read later by an [except] block. *)
Definition assign (name : string) (v : json) : M json :=
  fun w => (inr v, mkWorld ((name, v) :: frame w) (trace w)).

(** Reading a local variable: [UnboundLocalError] when it was never bound. *)
Definition local (name : string) : M json :=
  fun w =>
    match lookup name (frame w) with
    | Some v => (inr v, w)
    | None => (inl (Exception "UnboundLocalError" name), w)
    end.

(** A call of the client. *)
Definition call (client : s3) (c : s3_call) : M json :=
  fun w =>
    let r := client (trace w) c in
    (r, mkWorld (frame w) (trace w ++ [Call c r])%list).

(** [print(f'...')]. *)
Definition print (line : list fpart) : M unit :=
  fun w => (inr tt, mkWorld (frame w) (trace w ++ [Print line])%list).

(** [try: body  except ClientError as e: h1 e  except Exception as e: h2 e]. *)
Definition try_except {A} (body : M A) (on_client_error on_exception : exn -> M A)
  : M A :=
  fun w =>
    match body w with
    | (inr a, w') => (inr a, w')
    | (inl e, w') =>
        if is_client_error e then on_client_error e w' else on_exception e w'
    end.

(** [for x in xs: acc = body x acc]. *)
Fixpoint for_in {X S} (xs : list X) (body : X -> S -> M S) (acc : S) : M S :=
  match xs with
  | [] => ret acc
  | x :: rest => bind (body x acc) (for_in rest body)
  end.

(** ** The Lambda interface *)

(** The [body] entry of the event, as [json.loads] sees it. *)
Inductive body_field : Type :=
| body_missing                   (* no entry: the default '{}' is parsed *)
| body_not_text                  (* None, which API Gateway sends for no body *)
| body_malformed (msg : string)  (* text that is not JSON *)
| body_text (parsed : json).     (* text that parses to [parsed] *)

(** An event that is a dict, by the two entries the handlers read. *)
Record event : Type := mkEvent {
  httpMethod : json;             (* event.get('httpMethod') *)
  event_body : body_field
}.

(** What a handler is invoked with: a dict, or a value of another type
    ([None], a bool, a number, a string or a list), which has no [get]
    method.  An [event] is read as the payload it makes. *)
Inductive payload : Type :=
| dict_event (ev : event)
| not_a_dict.

Coercion dict_event : event >-> payload.

(** What [event.get] raises on a payload that is not a dict. *)
Definition no_get : exn :=
  Exception "AttributeError" "object has no attribute 'get'".

(** The context, by the one attribute the planner reads.  The request ids
    covered are those of code points below 256. *)
Record context : Type := mkContext { aws_request_id : string }.

(** The text of a response body. *)
Inductive body_text_of : Type :=
| text (s : string)
| json_dumps (v : json).

Record response : Type := mkResponse {
  statusCode : Z;
  headers : list (string * string);
  body : body_text_of
}.

(** [json.loads(event.get('body', '{}'))]. *)
Definition json_loads_body (b : body_field) : result json :=
  match b with
  | body_missing => inr (JObj [])
  | body_not_text =>
      inl (Exception "TypeError" "the JSON object must be str, bytes or bytearray")
  | body_malformed msg => inl (Exception "JSONDecodeError" msg)
  | body_text parsed => inr parsed
  end.

(** [v == 'OPTIONS']. *)
Definition is_options (v : json) : bool :=
  match v with JStr s => (s =? "OPTIONS")%string | _ => false end.

(** [os.environ[name]]. *)
Fixpoint environ_getitem (environ : list (string * string)) (name : string)
  : result string :=
  match environ with
  | [] => inl (Exception "KeyError" name)
  | (k, v) :: rest =>
      if (name =? k)%string then inr v else environ_getitem rest name
  end.

Definition cors_headers : list (string * string) :=
  [ ("Access-Control-Allow-Origin", "*");
    ("Access-Control-Allow-Headers",
     "Content-Type,X-Amz-Date,Authorization,X-Api-Key,X-Amz-Security-Token");
    ("Access-Control-Allow-Methods", "GET,POST,OPTIONS") ].

Definition preflight : response := mkResponse 200 cors_headers (text "").

Definition error_response (code : Z) (message : string) : response :=
  mkResponse code cors_headers (json_dumps (JObj [("error", JStr message)])).

(** Running a handler body from an empty frame and an empty trace. *)
Definition run {A} (m : M A) : result A * list effect :=
  let (r, w) := m (mkWorld [] []) in (r, trace w).

(** [try: body  except Exception as e: h e]. *)
Definition try_catch {A} (body : M A) (on_exception : exn -> M A) : M A :=
  try_except body on_exception on_exception.

(** [iter(v)], as a [for] loop walks it. *)
Definition py_iter (v : json) : result (list json) :=
  match v with
  | JList l => inr l
  | JObj items => inr (map (fun kv => JStr (fst kv)) items)
  | JStr s => inr (map (fun c => JStr (String c EmptyString)) (list_ascii_of_string s))
  | _ => inl (Exception "TypeError" "object is not iterable")
  end.

(** ** lambda/presigned-url/lambda_function.py *)

Module PresignedUrl.
Section Handler.
(** [s3_client], [os.environ], and [str] on the values whose text the
    handler does not fix (floats, lists, dicts). *)
Variable s3_client : s3.
Variable environ : list (string * string).
Variable builtin_str : json -> string.

(** [f'{v}']. *)
Definition py_str (v : json) : string :=
  match v with
  | JStr s => s
  | JNull => "None"
  | JBool true => "True"
  | JBool false => "False"
  | JInt n => str_of_int n
  | _ => builtin_str v
  end.

(** [f"uploads/{int(context.aws_request_id[:8], 16)}-{file_name}"]. *)
Definition object_key (ctx : context) (file_name : json) : result string :=
  match int_base16 (slice_to 8 (aws_request_id ctx)) with
  | inr n => inr ("uploads/" ++ str_of_int n ++ "-" ++ py_str file_name)%string
  | inl e => inl e
  end.

(** [file_size and file_size > 100 * 1024 * 1024]. *)
Definition is_large (file_size : json) : result json :=
  if truthy file_size then
    match py_gt file_size (100 * 1024 * 1024) with
    | inr b => inr (JBool b)
    | inl e => inl e
    end
  else inr file_size.

Definition part_size : Z := 10 * 1024 * 1024.

(** [math.ceil(file_size / part_size)]. *)
Definition count_parts (file_size : json) : result Z :=
  match py_truediv file_size part_size with
  | inr q => math_ceil q
  | inl e => inl e
  end.

(** The presigned URL of one part, appended to the list. *)
Definition presign_part (bucket_name : string) (key : string) (upload_id : json)
  (part_number : Z) (presigned_urls : list json) : M (list json) :=
  (presigned_url <-
     call s3_client
       (generate_presigned_url "upload_part"
          [ ("Bucket", JStr bucket_name); ("Key", JStr key);
            ("PartNumber", JInt part_number); ("UploadId", upload_id) ]
          3600) ;;
   ret (presigned_urls
        ++ [ JObj [ ("partNumber", JInt part_number);
                    ("presignedUrl", presigned_url) ] ])%list)%py.

Definition multipart (bucket_name key : string) (file_type file_size : json)
  : M response :=
  (response <-
     call s3_client
       (create_multipart_upload (JStr bucket_name) (JStr key) file_type) ;;
   upload_id <- eval (py_getitem response "UploadId") ;;
   num_parts <- eval (count_parts file_size) ;;
   presigned_urls <-
     for_in (py_range 1 (num_parts + 1))
            (presign_part bucket_name key upload_id) [] ;;
   ret (mkResponse 200 cors_headers
          (json_dumps
             (JObj [ ("uploadType", JStr "multipart");
                     ("uploadId", upload_id);
                     ("key", JStr key);
                     ("presignedUrls", JList presigned_urls);
                     ("partSize", JInt part_size) ]))))%py.

Definition single (bucket_name key : string) (file_type : json) : M response :=
  (presigned_url <-
     call s3_client
       (generate_presigned_url "put_object"
          [ ("Bucket", JStr bucket_name); ("Key", JStr key);
            ("ContentType", file_type) ]
          3600) ;;
   ret (mkResponse 200 cors_headers
          (json_dumps
             (JObj [ ("uploadType", JStr "single");
                     ("presignedUrl", presigned_url);
                     ("key", JStr key) ]))))%py.

(** The body of the [try]. *)
Definition try_body (ev : event) (ctx : context) : M response :=
  (body <- eval (json_loads_body (event_body ev)) ;;
   file_name <- eval (py_get body "fileName" JNull) ;;
   file_type <- eval (py_get body "fileType" JNull) ;;
   file_size <- eval (py_get body "fileSize" JNull) ;;
   if negb (truthy file_name) || negb (truthy file_type) then
     ret (error_response 400 "fileName and fileType are required")
   else
     bucket_name <- eval (environ_getitem environ "UPLOAD_BUCKET_NAME") ;;
     key <- eval (object_key ctx file_name) ;;
     is_large_file <- eval (is_large file_size) ;;
     if truthy is_large_file
     then multipart bucket_name key file_type file_size
     else single bucket_name key file_type)%py.

Definition on_client_error (e : exn) : M response :=
  (print [Lit "AWS error: "; Exn e] ;;;
   ret (error_response 500 "AWS service error"))%py.

Definition on_exception (e : exn) : M response :=
  (print [Lit "Error generating presigned URL: "; Exn e] ;;;
   ret (error_response 500 "Failed to generate presigned URL"))%py.

(** The handler: its outcome (a response, or an exception that escapes)
    and the trace of what it did.  [event.get('httpMethod')] is evaluated
    before the [try]: on a payload that is not a dict its [AttributeError]
    escapes. *)
Definition lambda_handler (event : payload) (ctx : context)
  : result response * list effect :=
  match event with
  | not_a_dict => (inl no_get, [])
  | dict_event ev =>
      if is_options (httpMethod ev) then (inr preflight, [])
      else run (try_except (try_body ev ctx) on_client_error on_exception)
  end.
End Handler.
End PresignedUrl.

(** ** lambda/complete-multipart/lambda_function.py *)

Module CompleteMultipart.
Section Handler.
Variable s3_client : s3.
Variable environ : list (string * string).

(** One entry of the manifest, reshaped for S3 and appended. *)
Definition format_part (part : json) (multipart_upload_parts : list json)
  : M (list json) :=
  (etag <- eval (py_getitem part "ETag") ;;
   part_number <- eval (py_getitem part "PartNumber") ;;
   ret (multipart_upload_parts
        ++ [ JObj [ ("ETag", etag); ("PartNumber", part_number) ] ])%list)%py.

(** The body of the [try]. *)
Definition try_body (ev : event) : M response :=
  (body <- eval (json_loads_body (event_body ev)) ;;
   upload_id <- bind (eval (py_get body "uploadId" JNull)) (assign "upload_id") ;;
   key <- bind (eval (py_get body "key" JNull)) (assign "key") ;;
   parts <- eval (py_get body "parts" JNull) ;;
   if negb (truthy upload_id) || negb (truthy key) || negb (truthy parts)
      || negb (isinstance_list parts)
   then ret (error_response 400 "uploadId, key, and parts array are required")
   else
     bucket_name <-
       bind (eval (environ_getitem environ "UPLOAD_BUCKET_NAME"))
            (fun b => assign "bucket_name" (JStr b)) ;;
     entries <- eval (py_iter parts) ;;
     multipart_upload_parts <- for_in entries format_part [] ;;
     response <-
       call s3_client
         (complete_multipart_upload bucket_name key upload_id
            (JObj [ ("Parts", JList multipart_upload_parts) ])) ;;
     location <- eval (py_get response "Location" (JStr "")) ;;
     final_key <- eval (py_get response "Key" key) ;;
     etag <- eval (py_get response "ETag" (JStr "")) ;;
     ret (mkResponse 200 cors_headers
            (json_dumps
               (JObj [ ("success", JBool true);
                       ("location", location);
                       ("key", final_key);
                       ("etag", etag) ]))))%py.

(** The inner [try]: abort the upload when [upload_id and key]. *)
Definition try_abort : M unit :=
  (upload_id <- local "upload_id" ;;
   if truthy upload_id then
     key <- local "key" ;;
     if truthy key then
       bucket_name <- local "bucket_name" ;;
       call s3_client (abort_multipart_upload bucket_name key upload_id) ;;;
       print [ Lit "Aborted multipart upload "; Val upload_id;
               Lit " for key "; Val key ]
     else ret tt
   else ret tt)%py.

Definition on_abort_error (abort_error : exn) : M unit :=
  print [Lit "Error aborting multipart upload: "; Exn abort_error].

Definition on_client_error (e : exn) : M response :=
  (print [Lit "AWS error completing multipart upload: "; Exn e] ;;;
   try_catch try_abort on_abort_error ;;;
   ret (error_response 500 "AWS service error completing multipart upload"))%py.

Definition on_exception (e : exn) : M response :=
  (print [Lit "Error completing multipart upload: "; Exn e] ;;;
   ret (error_response 500 "Failed to complete multipart upload"))%py.

(** The handler.  As in the planner, [event.get('httpMethod')] precedes the
    [try], and the [AttributeError] of a payload that is not a dict
    escapes. *)
Definition lambda_handler (event : payload) (ctx : context)
  : result response * list effect :=
  match event with
  | not_a_dict => (inl no_get, [])
  | dict_event ev =>
      if is_options (httpMethod ev) then (inr preflight, [])
      else run (try_except (try_body ev) on_client_error on_exception)
  end.
End Handler.
End CompleteMultipart.

(** ** Vocabulary of the statements *)

(** A field of a request body: [None] when the key is absent. *)
Definition field (d : list (string * json)) (k : string) : json :=
  match lookup k d with Some v => v | None => JNull end.

(** The exact ceiling of [a / b], on integers. *)
Definition ceil_div (a b : Z) : Z := (a + b - 1) / b.

Definition large_file_threshold : Z := 100 * 1024 * 1024.

(** The smallest part S3 accepts, the last part apart. *)
Definition minimum_part_size : Z := 5 * 1024 * 1024.

(** The size of the last of [n] parts of [part_size] bytes. *)
Definition last_part_size (file_size part_size n : Z) : Z :=
  file_size - (n - 1) * part_size.

(** The three results of the planner. *)
Definition invalid_plan_request : response :=
  error_response 400 "fileName and fileType are required".

Definition single_response (key : string) (presigned_url : json) : response :=
  mkResponse 200 cors_headers
    (json_dumps
       (JObj [ ("uploadType", JStr "single");
               ("presignedUrl", presigned_url);
               ("key", JStr key) ])).

Definition multipart_response (upload_id : json) (key : string)
  (presigned_urls : list json) : response :=
  mkResponse 200 cors_headers
    (json_dumps
       (JObj [ ("uploadType", JStr "multipart");
               ("uploadId", upload_id);
               ("key", JStr key);
               ("presignedUrls", JList presigned_urls);
               ("partSize", JInt PresignedUrl.part_size) ])).

Definition put_object_url (bucket_name key : string) (file_type : json) : s3_call :=
  generate_presigned_url "put_object"
    [ ("Bucket", JStr bucket_name); ("Key", JStr key); ("ContentType", file_type) ]
    3600.

Definition upload_part_url (bucket_name key : string) (upload_id : json)
  (part_number : Z) : s3_call :=
  generate_presigned_url "upload_part"
    [ ("Bucket", JStr bucket_name); ("Key", JStr key);
      ("PartNumber", JInt part_number); ("UploadId", upload_id) ]
    3600.

(** The [partNumber] of an entry of [presignedUrls]. *)
Definition part_number_of (entry : json) : result json :=
  py_getitem entry "partNumber".

(** The results of the finalizer. *)
Definition invalid_finalize_request : response :=
  error_response 400 "uploadId, key, and parts array are required".

Definition store_error : response :=
  error_response 500 "AWS service error completing multipart upload".

Definition generic_failure : response :=
  error_response 500 "Failed to complete multipart upload".

Definition success_response (location final_key etag : json) : response :=
  mkResponse 200 cors_headers
    (json_dumps
       (JObj [ ("success", JBool true);
               ("location", location);
               ("key", final_key);
               ("etag", etag) ])).

(** A manifest entry with both fields, and its shape for S3. *)
Definition has_fields (part : json) : bool :=
  match part with
  | JObj items =>
      match lookup "ETag" items, lookup "PartNumber" items with
      | Some _, Some _ => true
      | _, _ => false
      end
  | _ => false
  end.

Definition lacks_field (part : json) : Prop :=
  exists items, part = JObj items
    /\ (lookup "ETag" items = None \/ lookup "PartNumber" items = None).

Definition reshape (part : json) : json :=
  match part with
  | JObj items => JObj [ ("ETag", field items "ETag");
                         ("PartNumber", field items "PartNumber") ]
  | _ => JNull
  end.

Definition completion (bucket_name : string) (key upload_id : json)
  (parts : list json) : s3_call :=
  complete_multipart_upload (JStr bucket_name) key upload_id
    (JObj [ ("Parts", JList (map reshape parts)) ]).

Definition abort (bucket_name : string) (key upload_id : json) : s3_call :=
  abort_multipart_upload (JStr bucket_name) key upload_id.

(** ** Sample worlds *)

(** A store that accepts every call. *)
Definition accepting : s3 :=
  fun _ c =>
    match c with
    | create_multipart_upload _ _ _ => inr (JObj [ ("UploadId", JStr "upload-1") ])
    | generate_presigned_url _ _ _ => inr (JStr "https://signed.example/url")
    | complete_multipart_upload _ k _ _ =>
        inr (JObj [ ("Location", JStr "https://bucket.example/object");
                    ("Key", k); ("ETag", JStr "final-etag") ])
    | abort_multipart_upload _ _ _ => inr (JObj [])
    end.

(** A store that rejects the completion; the abort then succeeds. *)
Definition rejecting : s3 :=
  fun _ c =>
    match c with
    | complete_multipart_upload _ _ _ _ => inl (ClientError "InvalidPart")
    | _ => inr (JObj [])
    end.

(** A store that rejects the completion and the abort after it. *)
Definition rejecting_twice : s3 :=
  fun _ c =>
    match c with
    | complete_multipart_upload _ _ _ _ => inl (ClientError "InvalidPart")
    | abort_multipart_upload _ _ _ => inl (ClientError "AccessDenied")
    | _ => inr (JObj [])
    end.

Definition sample_environ : list (string * string) :=
  [ ("UPLOAD_BUCKET_NAME", "uploads-bucket") ].

Definition sample_str (v : json) : string := "".

Definition sample_context : context :=
  mkContext "8d2c41f0-6b1e-4c1a-9d57-0a3e5f7b9c11".

(** A second invocation: another request id, with the same first eight
    characters. *)
Definition other_context : context :=
  mkContext "8d2c41f0-ffff-4000-8000-123456789abc".

Definition post (d : list (string * json)) : event :=
  mkEvent (JStr "POST") (body_text (JObj d)).

Definition plan_request (file_size : json) : list (string * json) :=
  [ ("fileName", JStr "video.mp4"); ("fileType", JStr "video/mp4");
    ("fileSize", file_size) ].

Definition MiB : Z := 1024 * 1024.

Definition sample_manifest : list json :=
  [ JObj [ ("ETag", JStr "etag-1"); ("PartNumber", JInt 1) ];
    JObj [ ("ETag", JStr "etag-2"); ("PartNumber", JInt 2) ] ].

Definition finalize_request (parts : json) : list (string * json) :=
  [ ("uploadId", JStr "upload-1"); ("key", JStr "uploads/1-video.mp4");
    ("parts", parts) ].

(** ** Outcomes of the two handlers *)

(** A planner body run under the handler's [try]. *)
Definition plan_outcome (m : M response) : result response * list effect :=
  run (try_except m PresignedUrl.on_client_error PresignedUrl.on_exception).

Definition plan_failure (e : exn) : response :=
  if is_client_error e then error_response 500 "AWS service error"
  else error_response 500 "Failed to generate presigned URL".

Definition plan_failure_line (e : exn) : effect :=
  if is_client_error e then Print [Lit "AWS error: "; Exn e]
  else Print [Lit "Error generating presigned URL: "; Exn e].

(** The lines the finalizer prints. *)
Definition completion_failed_line (e : exn) : effect :=
  Print [Lit "AWS error completing multipart upload: "; Exn e].

Definition aborted_line (upload_id key : json) : effect :=
  Print [Lit "Aborted multipart upload "; Val upload_id; Lit " for key "; Val key].

Definition abort_failed_line (abort_error : exn) : effect :=
  Print [Lit "Error aborting multipart upload: "; Exn abort_error].

Definition failure_line (e : exn) : effect :=
  Print [Lit "Error completing multipart upload: "; Exn e].

(** What is printed after the abort, from its outcome. *)
Definition abort_line (upload_id key : json) (r : result json) : effect :=
  match r with
  | inr _ => aborted_line upload_id key
  | inl abort_error => abort_failed_line abort_error
  end.

(** ** Rounding a quotient to binary64 *)

(** The location left after one right shift of mantissa [q] at location [l]. *)
Definition half_location (q : Z) (l : location) : location :=
  loc_of_shr_record (shr_1 (shr_record_of_loc q l)).

(** A mantissa of 53 or 54 bits rounded to 53 bits, in units of its last
    bit before rounding. *)
Definition rounded (q : Z) (l : location) : Z :=
  if q <? 2 ^ 53 then round_nearest_even q l
  else 2 * round_nearest_even (q / 2) (half_location q l).

(** ** Vocabulary of the further properties *)

(** A presigned URL for a part of the session on [key] in [bucket_name]. *)
Definition is_upload_part_call (bucket_name key : string) (upload_id : json)
  (ef : effect) : Prop :=
  exists part_number r,
    ef = Call (upload_part_url bucket_name key upload_id part_number) r.

(** The calls a planner may leave in its trace. *)
Inductive planner_calls : list effect -> Prop :=
| planner_no_call : planner_calls []
| planner_single bucket_name key file_type r :
    planner_calls [ Call (put_object_url bucket_name key file_type) r ]
| planner_session bucket_name key file_type r upload_id ps :
    Forall (is_upload_part_call bucket_name key upload_id) ps ->
    (ps <> [] -> exists created, r = inr created
                                 /\ py_getitem created "UploadId" = inr upload_id) ->
    planner_calls
      (Call (create_multipart_upload (JStr bucket_name) (JStr key) file_type) r :: ps).

(** The answers of the two handlers: a status among 200, 400 and 500, under
    the CORS headers. *)
Definition well_formed_answer (r : response) : Prop :=
  headers r = cors_headers
  /\ (statusCode r = 200 \/ statusCode r = 400 \/ statusCode r = 500).

(** A call that failed with a [ClientError]. *)
Definition rejected (r : result json) : bool :=
  match r with inl e => is_client_error e | inr _ => false end.

(** The calls a finalizer may leave in its trace. *)
Inductive finalizer_calls : list effect -> Prop :=
| finalizer_no_call : finalizer_calls []
| finalizer_completion bucket_name key upload_id parts r :
    rejected r = false ->
    finalizer_calls
      [ Call (complete_multipart_upload (JStr bucket_name) key upload_id parts) r ]
| finalizer_abort bucket_name key upload_id parts msg aborted :
    finalizer_calls
      [ Call (complete_multipart_upload (JStr bucket_name) key upload_id parts)
             (inl (ClientError msg));
        Call (abort_multipart_upload (JStr bucket_name) key upload_id) aborted ].

(** A store that cannot be reached: every call fails in the client. *)
Definition unreachable : s3 :=
  fun _ _ => inl (Exception "EndpointConnectionError" "could not connect").

(** The planner's generic failure. *)
Definition plan_generic_failure : response :=
  error_response 500 "Failed to generate presigned URL".

Definition plan_generic_line (e : exn) : effect :=
  Print [Lit "Error generating presigned URL: "; Exn e].

(** A body [json.loads] cannot turn into a dict. *)
Definition unreadable (b : body_field) : Prop :=
  b = body_not_text
  \/ (exists msg, b = body_malformed msg)
  \/ (exists parsed, b = body_text parsed /\ forall d, parsed <> JObj d).

(** A value with no order against an int: a string, a list or a dict. *)
Definition unordered (v : json) : bool :=
  match v with JStr _ | JList _ | JObj _ => true | _ => false end.

(** A call that returned. *)
Definition returned (ef : effect) : Prop :=
  exists c v, ef = Call c (inr v).

(** A store that opens sessions and then refuses to sign from part
    [failing] on. *)
Definition signing_until (failing : Z) : s3 :=
  fun _ c =>
    match c with
    | create_multipart_upload _ _ _ => inr (JObj [ ("UploadId", JStr "upload-1") ])
    | generate_presigned_url _ params _ =>
        match lookup "PartNumber" params with
        | Some (JInt pn) =>
            if pn <? failing then inr (JStr "https://signed.example/url")
            else inl (Exception "NoCredentialsError" "Unable to locate credentials")
        | _ => inr (JStr "https://signed.example/url")
        end
    | _ => inr (JObj [])
    end.

(** A store that answers every call with a [ClientError]. *)
Definition denying : s3 := fun _ _ => inl (ClientError "AccessDenied").

(** A base-16 digit, and a string made of them. *)
(** [s.isascii()]: every code point is below 128. *)
Fixpoint isascii (s : string) : bool :=
  match s with
  | EmptyString => true
  | String c rest => (Z.of_nat (nat_of_ascii c) <? 128) && isascii rest
  end.

Definition is_hex_digit (c : ascii) : bool :=
  match hex_value c with Some _ => true | None => false end.

Fixpoint all_hex (s : string) : bool :=
  match s with
  | EmptyString => true
  | String c rest => is_hex_digit c && all_hex rest
  end.

(** * Lemmas *)

(** ** Python values *)

Lemma py_get_field d k : py_get (JObj d) k JNull = inr (field d k).
Proof. reflexivity. Qed.

Lemma environ_getitem_raises environ name e :
  environ_getitem environ name = inl e -> is_client_error e = false.
Proof.
  induction environ as [ | [k v] rest IH ]; cbn [environ_getitem].
  - intros H; inversion H; reflexivity.
  - destruct ((name =? k)%string); [ discriminate | exact IH ].
Qed.

(** ** The planner, step by step *)

Section Planner.
Variable client : s3.
Variable environ : list (string * string).
Variable builtin_str : json -> string.

Lemma single_run bucket_name key file_type :
  let c := put_object_url bucket_name key file_type in
  plan_outcome (PresignedUrl.single client bucket_name key file_type) =
  match client [] c with
  | inr url => (inr (single_response key url), [Call c (inr url)])
  | inl e => (inr (plan_failure e), [Call c (inl e); plan_failure_line e])
  end.
Proof.
  intro c. unfold plan_outcome, run, try_except, PresignedUrl.single, bind, call.
  cbn [trace frame app]. fold (put_object_url bucket_name key file_type). fold c.
  destruct (client [] c) as [e | url]; [ destruct e | ]; reflexivity.
Qed.

(** The loop over the part numbers. *)
Lemma presign_loop bucket_name key upload_id :
  (forall h pn, exists url, client h (upload_part_url bucket_name key upload_id pn) = inr url) ->
  forall xs acc w,
  exists urls t,
    for_in xs (PresignedUrl.presign_part client bucket_name key upload_id) acc w
    = (inr (acc ++ urls)%list, mkWorld (frame w) (trace w ++ t)%list)
    /\ map part_number_of urls = map (fun pn => inr (JInt pn)) xs
    /\ List.length t = List.length xs
    /\ forallb is_presign t = true.
Proof.
  intros Hok xs. induction xs as [ | x xs IH ]; intros acc w.
  - exists [], []. cbn. rewrite !app_nil_r. destruct w; auto.
  - destruct (Hok (trace w) x) as [url Hurl].
    cbn [for_in]. unfold bind at 1. unfold PresignedUrl.presign_part at 1.
    unfold bind at 1, call. fold (upload_part_url bucket_name key upload_id x).
    rewrite Hurl. cbn [ret].
    match goal with |- context [for_in xs _ ?a ?w'] =>
      destruct (IH a w') as (urls & t & Hrun & Hnum & Hlen & Hall) end.
    rewrite Hrun. cbn [frame trace].
    eexists (_ :: urls), (_ :: t). repeat split.
    + rewrite <- !app_assoc. reflexivity.
    + cbn [map]. rewrite Hnum. reflexivity.
    + cbn [List.length]. rewrite Hlen. reflexivity.
    + cbn [forallb]. rewrite Hall. reflexivity.
Qed.

Lemma multipart_run bucket_name key file_type file_size created upload_id n :
  client [] (create_multipart_upload (JStr bucket_name) (JStr key) file_type)
    = inr created ->
  py_getitem created "UploadId" = inr upload_id ->
  PresignedUrl.count_parts file_size = inr n ->
  (forall h pn, exists url,
      client h (upload_part_url bucket_name key upload_id pn) = inr url) ->
  exists urls t,
    plan_outcome (PresignedUrl.multipart client bucket_name key file_type file_size)
    = (inr (multipart_response upload_id key urls),
       Call (create_multipart_upload (JStr bucket_name) (JStr key) file_type)
            (inr created) :: t)
    /\ map part_number_of urls = map (fun pn => inr (JInt pn)) (py_range 1 (n + 1))
    /\ List.length t = List.length (py_range 1 (n + 1))
    /\ forallb is_presign t = true.
Proof.
  intros Hc Hu Hn Hok.
  unfold plan_outcome, run, try_except, PresignedUrl.multipart.
  unfold bind at 1. unfold call at 1. cbn [trace frame app]. rewrite Hc.
  unfold bind at 1. rewrite Hu. cbn [eval ret].
  unfold bind at 1. rewrite Hn. cbn [eval ret].
  unfold bind at 1.
  match goal with |- context [for_in ?xs _ ?a ?w] =>
    destruct (presign_loop bucket_name key upload_id Hok xs a w)
      as (urls & t & Hrun & Hnum & Hlen & Hall) end.
  rewrite Hrun. cbn [ret trace frame app].
  exists urls, t. repeat split; assumption.
Qed.
End Planner.

(** ** The finalizer, step by step *)

Section Finalizer.
Variable client : s3.
Variable environ : list (string * string).

Lemma finalize_invalid (ev : event) ctx d :
  is_options (httpMethod ev) = false ->
  json_loads_body (event_body ev) = inr (JObj d) ->
  truthy (field d "uploadId") = false \/ truthy (field d "key") = false
  \/ truthy (field d "parts") = false \/ isinstance_list (field d "parts") = false ->
  CompleteMultipart.lambda_handler client environ ev ctx
  = (inr invalid_finalize_request, []).
Proof.
  intros Hm Hb Hf.
  unfold CompleteMultipart.lambda_handler. rewrite Hm.
  unfold run, try_except, CompleteMultipart.try_body, bind, eval, assign.
  rewrite Hb. cbn [ret]. rewrite !py_get_field. cbn [ret trace frame].
  destruct Hf as [Hf | [Hf | [Hf | Hf]]]; rewrite Hf; cbn [negb];
    rewrite ?orb_true_r; reflexivity.
Qed.

Lemma format_loop_ok parts :
  forallb has_fields parts = true ->
  forall acc w,
    for_in parts CompleteMultipart.format_part acc w
    = (inr (acc ++ map reshape parts)%list, w).
Proof.
  induction parts as [ | p parts IH ]; intros Hall acc w.
  - cbn. rewrite app_nil_r. reflexivity.
  - cbn [forallb] in Hall. apply andb_true_iff in Hall as [Hp Hall].
    destruct p as [ | | | | | | items ]; try discriminate Hp.
    cbn [has_fields] in Hp.
    cbn [for_in]. unfold bind at 1.
    unfold CompleteMultipart.format_part, bind, eval, py_getitem.
    unfold reshape, field. cbn [map].
    destruct (lookup "ETag" items); [ | discriminate Hp ].
    destruct (lookup "PartNumber" items); [ | discriminate Hp ].
    cbn [ret]. rewrite IH by assumption. rewrite <- app_assoc. reflexivity.
Qed.

Lemma format_part_raises p acc w e w' :
  CompleteMultipart.format_part p acc w = (inl e, w') ->
  is_client_error e = false /\ w' = w.
Proof.
  unfold CompleteMultipart.format_part, bind, eval.
  destruct (py_getitem p "ETag") as [e1 | v1] eqn:E1.
  - intros H. inversion H; subst.
    destruct p as [ | | | | | | items ]; cbn in E1; try (inversion E1; subst; auto).
    destruct (lookup "ETag" items); inversion E1; auto.
  - cbn [ret]. destruct (py_getitem p "PartNumber") as [e2 | v2] eqn:E2.
    + intros H. inversion H; subst.
      destruct p as [ | | | | | | items ]; cbn in E2; try (inversion E2; subst; auto).
      destruct (lookup "PartNumber" items); inversion E2; auto.
    + cbn [ret]. intros H. inversion H.
Qed.

Lemma format_part_lacking p acc w :
  lacks_field p ->
  exists e, CompleteMultipart.format_part p acc w = (inl e, w).
Proof.
  intros (items & -> & H).
  unfold CompleteMultipart.format_part, bind, eval, py_getitem.
  destruct H as [H | H].
  - rewrite H. eexists. reflexivity.
  - rewrite H. destruct (lookup "ETag" items); eexists; reflexivity.
Qed.

Lemma format_loop_raises parts :
  Exists lacks_field parts ->
  forall acc w,
  exists e, for_in parts CompleteMultipart.format_part acc w = (inl e, w)
            /\ is_client_error e = false.
Proof.
  induction 1 as [ p parts Hp | p parts Hex IH ]; intros acc w.
  - destruct (format_part_lacking p acc w Hp) as [e He].
    exists e. cbn [for_in]. unfold bind. rewrite He. split; [ reflexivity | ].
    apply (format_part_raises _ _ _ _ _ He).
  - cbn [for_in]. unfold bind.
    destruct (CompleteMultipart.format_part p acc w) as [[e | acc'] w'] eqn:E.
    + destruct (format_part_raises _ _ _ _ _ E) as [Hc ->]. exists e. auto.
    + assert (w' = w) as ->.
      { revert E. unfold CompleteMultipart.format_part, bind, eval.
        destruct (py_getitem p "ETag"); cbn [ret raise]; [ discriminate | ].
        destruct (py_getitem p "PartNumber"); cbn [ret raise]; [ discriminate | ].
        intros E; inversion E; reflexivity. }
      apply IH.
Qed.

Lemma finalize_manifest_error (ev : event) ctx d l :
  is_options (httpMethod ev) = false ->
  json_loads_body (event_body ev) = inr (JObj d) ->
  truthy (field d "uploadId") = true ->
  truthy (field d "key") = true ->
  field d "parts" = JList l ->
  Exists lacks_field l ->
  exists e,
    CompleteMultipart.lambda_handler client environ ev ctx
    = (inr generic_failure, [failure_line e])
    /\ is_client_error e = false.
Proof.
  intros Hm Hb Hu Hk Hp Hex.
  assert (Ht : truthy (JList l) = true) by (inversion Hex; reflexivity).
  unfold CompleteMultipart.lambda_handler. rewrite Hm.
  unfold run, try_except, CompleteMultipart.try_body.
  unfold bind at 1. rewrite Hb. cbn [eval ret].
  unfold bind at 1. unfold bind at 1. rewrite py_get_field. cbn [eval ret assign].
  unfold bind at 1. unfold bind at 1. rewrite py_get_field. cbn [eval ret assign frame trace].
  unfold bind at 1. rewrite py_get_field. cbn [eval ret].
  rewrite Hu, Hk, Hp, Ht. cbn [negb orb isinstance_list].
  unfold bind at 1. unfold bind at 1.
  destruct (environ_getitem environ "UPLOAD_BUCKET_NAME") as [e | b] eqn:He.
  - exists e. cbn [eval raise]. 
    assert (Hc : is_client_error e = false)
      by (apply (environ_getitem_raises _ _ _ He)).
    split; [ rewrite Hc; reflexivity | assumption ].
  - cbn [eval ret assign frame trace]. unfold bind at 1. cbn [py_iter eval ret].
    unfold bind at 1.
    match goal with |- context [for_in l _ ?a ?w] =>
      destruct (format_loop_raises l Hex a w) as (e & Hrun & Hc) end.
    rewrite Hrun. exists e. split; [ rewrite Hc; reflexivity | assumption ].
Qed.

Lemma finalize_reaches_completion (ev : event) ctx d l bucket_name :
  is_options (httpMethod ev) = false ->
  json_loads_body (event_body ev) = inr (JObj d) ->
  truthy (field d "uploadId") = true ->
  truthy (field d "key") = true ->
  field d "parts" = JList l ->
  l <> [] ->
  forallb has_fields l = true ->
  environ_getitem environ "UPLOAD_BUCKET_NAME" = inr bucket_name ->
  let upload_id := field d "uploadId" in
  let key := field d "key" in
  let c := completion bucket_name key upload_id l in
  CompleteMultipart.lambda_handler client environ ev ctx =
  match client [] c with
  | inr (JObj items) =>
      (inr (success_response
              (match lookup "Location" items with Some v => v | None => JStr "" end)
              (match lookup "Key" items with Some v => v | None => key end)
              (match lookup "ETag" items with Some v => v | None => JStr "" end)),
       [Call c (inr (JObj items))])
  | inr other =>
      (inr generic_failure,
       [Call c (inr other);
        failure_line (Exception "AttributeError" "object has no attribute 'get'")])
  | inl (ClientError msg) =>
      let before := [Call c (inl (ClientError msg));
                     completion_failed_line (ClientError msg)] in
      let a := abort bucket_name key upload_id in
      (inr store_error,
       (before ++ [Call a (client before a);
                   abort_line upload_id key (client before a)])%list)
  | inl (Exception kind msg) =>
      (inr generic_failure,
       [Call c (inl (Exception kind msg)); failure_line (Exception kind msg)])
  end.
Proof.
  intros Hm Hb Hu Hk Hp Hne Hall He. cbv zeta.
  assert (Ht : truthy (JList l) = true) by (destruct l; [ congruence | reflexivity ]).
  unfold CompleteMultipart.lambda_handler. rewrite Hm.
  unfold run, try_except, CompleteMultipart.try_body.
  unfold bind at 1. rewrite Hb. cbn [eval ret].
  unfold bind at 1. unfold bind at 1. rewrite py_get_field. cbn [eval ret assign].
  unfold bind at 1. unfold bind at 1. rewrite py_get_field. cbn [eval ret assign frame trace].
  unfold bind at 1. rewrite py_get_field. cbn [eval ret].
  rewrite Hu, Hk, Hp, Ht. cbn [negb orb isinstance_list].
  unfold bind at 1. unfold bind at 1. rewrite He.
  cbn [eval ret assign frame trace]. unfold bind at 1. cbn [py_iter eval ret].
  unfold bind at 1. rewrite format_loop_ok by assumption. cbn [app].
  unfold bind at 1. unfold call at 1. cbn [trace frame app].
  fold (completion bucket_name (field d "key") (field d "uploadId") l).
  destruct (client [] _) as [e | resp].
  - destruct e as [msg | kind msg].
    + cbn [is_client_error].
      unfold CompleteMultipart.on_client_error.
      unfold bind at 1. unfold print at 1. cbn [trace frame app].
      unfold bind at 1. unfold try_catch, try_except, CompleteMultipart.try_abort.
      unfold bind at 1. unfold local at 1. cbn [frame lookup String.eqb Ascii.eqb Bool.eqb].
      rewrite Hu. unfold bind at 1. unfold local at 1.
      cbn [frame lookup String.eqb Ascii.eqb Bool.eqb]. rewrite Hk.
      unfold bind at 1. unfold local at 1.
      cbn [frame lookup String.eqb Ascii.eqb Bool.eqb].
      unfold bind at 1. unfold call at 1. cbn [trace frame app].
      fold (abort bucket_name (field d "key") (field d "uploadId")).
      fold (completion_failed_line (ClientError msg)).
      destruct (client _ (abort _ _ _)) as [e2 | r2].
      * destruct e2; reflexivity.
      * reflexivity.
    + reflexivity.
  - destruct resp; reflexivity.
Qed.
End Finalizer.

(** ** binary64 division by the part size *)

Lemma digits2_pos_size p : digits2_pos p = Pos.size p.
Proof. induction p; cbn; congruence. Qed.

Lemma Zdigits2_unique q d :
  2 ^ (d - 1) <= q < 2 ^ d -> 0 < d -> Zdigits2 q = d.
Proof.
  intros Hq Hd.
  assert (0 < q) by (assert (0 < 2 ^ (d - 1)) by (apply Z.pow_pos_nonneg; lia); lia).
  destruct q as [ | p | p ]; try lia.
  cbn [Zdigits2]. rewrite digits2_pos_size.
  assert (Z.log2 (Zpos p) = d - 1).
  { apply Z.log2_unique; [ lia | ]. replace (Z.succ (d - 1)) with d by lia. exact Hq. }
  assert (Zpos (Pos.size p) = Z.succ (Z.log2 (Zpos p))).
  { destruct p; cbn; lia. }
  lia.
Qed.

Lemma shr_1_spec m r s :
  0 <= m ->
  shr_1 (Build_shr_record m r s) = Build_shr_record (m / 2) (Z.odd m) (r || s).
Proof.
  intros Hm. destruct m as [ | p | p ]; [ reflexivity | | lia ].
  destruct p as [ p | p | ]; cbn [shr_1 Z.odd].
  - f_equal. rewrite Pos2Z.inj_xI. apply Z.div_unique with 1; lia.
  - f_equal. rewrite Pos2Z.inj_xO. apply Z.div_unique with 0; lia.
  - reflexivity.
Qed.

Lemma loc_of_shr_record_of_loc m l :
  loc_of_shr_record (shr_record_of_loc m l) = l.
Proof. destruct l as [ | [ | | ] ]; reflexivity. Qed.

Lemma shr_m_of_loc m l : shr_m (shr_record_of_loc m l) = m.
Proof. destruct l as [ | [ | | ] ]; reflexivity. Qed.

Lemma fexp_normal e : -1074 <= e - 53 -> fexp prec emax e = e - 53.
Proof. unfold fexp, emin, prec, emax. lia. Qed.

Lemma shr_fexp_53 m e l :
  2 ^ 52 <= m < 2 ^ 53 -> -1074 <= e ->
  shr_fexp prec emax m e l = (shr_record_of_loc m l, e).
Proof.
  intros Hm He. unfold shr_fexp.
  rewrite (Zdigits2_unique m 53) by lia.
  rewrite fexp_normal by lia.
  replace (53 + e - 53 - e) with 0 by lia. reflexivity.
Qed.

Lemma shr_fexp_54 m e l :
  2 ^ 53 <= m < 2 ^ 54 -> -1074 <= e ->
  shr_fexp prec emax m e l = (shr_1 (shr_record_of_loc m l), e + 1).
Proof.
  intros Hm He. unfold shr_fexp.
  rewrite (Zdigits2_unique m 54) by lia.
  rewrite fexp_normal by lia.
  replace (54 + e - 53 - e) with 1 by lia. reflexivity.
Qed.

Lemma round_nearest_even_bounds m l :
  m <= round_nearest_even m l <= m + 1.
Proof.
  destruct l as [ | [ | | ] ]; cbn [round_nearest_even]; try lia.
  destruct (Z.even m); lia.
Qed.

(** First rounding step: at most one shift, then round to nearest even. *)
Lemma first_round q e l :
  2 ^ 52 <= q < 2 ^ 54 -> -1074 <= e ->
  exists mrs e1,
    shr_fexp prec emax q e l = (mrs, e1)
    /\ e <= e1 <= e + 1
    /\ 2 ^ 52 <= round_nearest_even (shr_m mrs) (loc_of_shr_record mrs) <= 2 ^ 53
    /\ round_nearest_even (shr_m mrs) (loc_of_shr_record mrs) * 2 ^ (e1 - e)
       = rounded q l.
Proof.
  intros Hq He. unfold rounded.
  destruct (q <? 2 ^ 53) eqn:Hlt.
  - apply Z.ltb_lt in Hlt.
    exists (shr_record_of_loc q l), e. rewrite shr_fexp_53 by lia.
    rewrite loc_of_shr_record_of_loc, shr_m_of_loc.
    pose proof (round_nearest_even_bounds q l).
    replace (e - e) with 0 by lia. repeat split; lia.
  - apply Z.ltb_ge in Hlt.
    exists (shr_1 (shr_record_of_loc q l)), (e + 1). rewrite shr_fexp_54 by lia.
    fold (half_location q l).
    assert (Hm : shr_m (shr_1 (shr_record_of_loc q l)) = q / 2).
    { destruct l as [ | [ | | ] ]; cbn [shr_record_of_loc];
        rewrite shr_1_spec by lia; reflexivity. }
    rewrite Hm.
    pose proof (round_nearest_even_bounds (q / 2) (half_location q l)).
    replace (e + 1 - e) with 1 by lia.
    assert (2 ^ 52 <= q / 2 < 2 ^ 53).
    { change (2 ^ 53) with (2 * 2 ^ 52) in Hlt. change (2 ^ 54) with (2 * 2 ^ 53) in Hq.
      split; [ apply Z.div_le_lower_bound | apply Z.div_lt_upper_bound ]; lia. }
    repeat split; lia.
Qed.

(** Second step: a carry out of the rounding is shifted back in. *)
Lemma renormalize m e :
  2 ^ 52 <= m <= 2 ^ 53 -> -1074 <= e ->
  exists M E,
    shr_fexp prec emax m e loc_Exact = (Build_shr_record (Zpos M) false false, E)
    /\ e <= E <= e + 1
    /\ Zpos M * 2 ^ (E - e) = m.
Proof.
  intros Hm He.
  destruct (Z.eq_dec m (2 ^ 53)) as [-> | Hne].
  - exists (Z.to_pos (2 ^ 52)), (e + 1). rewrite shr_fexp_54 by lia.
    replace (e + 1 - e) with 1 by lia. repeat split; try lia; reflexivity.
  - exists (Z.to_pos m), e. rewrite shr_fexp_53 by lia.
    replace (e - e) with 0 by lia. rewrite Z2Pos.id by lia. cbn [shr_record_of_loc].
    repeat split; lia.
Qed.

Lemma binary_round_aux_normal q e l :
  2 ^ 52 <= q < 2 ^ 54 -> -1074 <= e <= 900 ->
  exists M E,
    binary_round_aux prec emax false q e l = S754_finite false M E
    /\ e <= E <= e + 2
    /\ Zpos M * 2 ^ (E - e) = rounded q l.
Proof.
  intros Hq He.
  destruct (first_round q e l Hq) as (mrs & e1 & H1 & He1 & Hb & Hv); [ lia | ].
  destruct (renormalize _ e1 Hb) as (M & E & H2 & HE & HM); [ lia | ].
  exists M, E. unfold binary_round_aux. rewrite H1, H2. cbn [shr_m].
  replace (E <=? emax - prec) with true by (symmetry; apply Z.leb_le; unfold emax, prec; lia).
  repeat split; try lia.
  rewrite <- Hv, <- HM. rewrite <- Z.mul_assoc, <- Z.pow_add_r by lia.
  f_equal. f_equal. lia.
Qed.

(** The location of the quotient by the part size, from the remainder. *)
Lemma new_location_part_size r :
  new_location PresignedUrl.part_size r
  = if r =? 0 then loc_Exact else loc_Inexact (2 * r ?= PresignedUrl.part_size).
Proof. reflexivity. Qed.

(** What [rounded] is, by cases, as linear facts. *)
Lemma rounded_cases q r :
  0 <= q -> 0 <= r < PresignedUrl.part_size ->
  let R := rounded q (new_location PresignedUrl.part_size r) in
  (q < 2 ^ 53 /\
     ((r = 0 /\ R = q) \/ (0 < 2 * r < PresignedUrl.part_size /\ R = q) \/ (2 * r > PresignedUrl.part_size /\ R = q + 1)
      \/ (2 * r = PresignedUrl.part_size /\ q <= R <= q + 1)))
  \/ (2 ^ 53 <= q /\ exists h, 
        ((q = 2 * h /\ r = 0 /\ R = q)
         \/ (q = 2 * h /\ 0 < r /\ R = q)
         \/ (q = 2 * h + 1 /\ 0 < r /\ R = q + 1)
         \/ (q = 2 * h + 1 /\ r = 0 /\ q - 1 <= R <= q + 1))).
Proof.
  intros Hq Hr R. subst R. unfold rounded. rewrite new_location_part_size.
  destruct (q <? 2 ^ 53) eqn:Hlt; [ left; apply Z.ltb_lt in Hlt | right; apply Z.ltb_ge in Hlt ];
    (split; [ assumption | ]).
  - destruct (r =? 0) eqn:Hr0.
    + apply Z.eqb_eq in Hr0. cbn [round_nearest_even]. lia.
    + apply Z.eqb_neq in Hr0.
      destruct (Z.compare_spec (2 * r) PresignedUrl.part_size) as [Hc | Hc | Hc]; cbn [round_nearest_even].
      * pose proof (round_nearest_even_bounds q (loc_Inexact Eq)) as Hb.
        cbn [round_nearest_even] in Hb. lia.
      * lia.
      * lia.
  - exists (q / 2).
    pose proof (Z.div2_odd q) as Hodd. rewrite Z.div2_div in Hodd.
    unfold half_location.
    destruct (r =? 0) eqn:Hr0.
    + apply Z.eqb_eq in Hr0. cbn [shr_record_of_loc]. rewrite shr_1_spec by lia.
      destruct (Z.odd q); cbn [Z.b2z] in Hodd; cbn [orb loc_of_shr_record].
      * pose proof (round_nearest_even_bounds (q / 2) (loc_Inexact Eq)) as Hb. lia.
      * cbn [round_nearest_even]. lia.
    + apply Z.eqb_neq in Hr0.
      assert (Hs : exists r0 s0, shr_record_of_loc q (loc_Inexact (2 * r ?= PresignedUrl.part_size))
                                 = Build_shr_record q r0 s0 /\ r0 || s0 = true).
      { destruct (2 * r ?= PresignedUrl.part_size); cbn; eauto. }
      destruct Hs as (r0 & s0 & -> & Hs). rewrite shr_1_spec by lia. rewrite Hs.
      destruct (Z.odd q); cbn [Z.b2z] in Hodd; cbn [loc_of_shr_record round_nearest_even]; lia.
Qed.

Lemma ceil_div_bounds z : 0 < z ->
  (ceil_div z PresignedUrl.part_size - 1) * PresignedUrl.part_size < z <= ceil_div z PresignedUrl.part_size * PresignedUrl.part_size.
Proof.
  intros Hz. unfold ceil_div, PresignedUrl.part_size.
  change (10 * 1024 * 1024) with 10485760.
  pose proof (Z.div_mod (z + 10485760 - 1) 10485760 ltac:(lia)).
  pose proof (Z.mod_pos_bound (z + 10485760 - 1) 10485760 ltac:(lia)).
  lia.
Qed.

(** The rounded quotient, in units of [1/N], lies in the last unit interval
    below the exact ceiling. *)
Lemma rounded_between z N q r :
  0 < z ->
  (N = 2 ^ 23 /\ z <= 10 * 2 ^ 50) \/ N = 2 ^ 24
    \/ (exists N2, 0 < N2 /\ N = 2 ^ 25 * N2) ->
  z * N = q * PresignedUrl.part_size + r -> 0 <= r < PresignedUrl.part_size -> 0 <= q ->
  (ceil_div z PresignedUrl.part_size - 1) * N < rounded q (new_location PresignedUrl.part_size r) <= ceil_div z PresignedUrl.part_size * N.
Proof.
  intros Hz HN Hdiv Hr Hq.
  pose proof (ceil_div_bounds z Hz) as HC.
  pose proof (rounded_cases q r Hq Hr) as HR. cbv zeta in HR.
  set (R := rounded q (new_location PresignedUrl.part_size r)) in *. clearbody R.
  set (C := ceil_div z PresignedUrl.part_size) in *. clearbody C.
  unfold PresignedUrl.part_size in *.
  change (10 * 1024 * 1024) with 10485760 in *.
  change (2 ^ 53) with 9007199254740992 in *.
  destruct HN as [[-> Hmax] | [-> | (N2 & HN2 & ->)]].
  - change (2 ^ 23) with 8388608 in *. change (10 * 2 ^ 50) with 11258999068426240 in *.
    destruct HR as [(Hlt & HR) | (Hge & h & HR)]; lia.
  - change (2 ^ 24) with 16777216 in *.
    destruct HR as [(Hlt & HR) | (Hge & h & HR)]; lia.
  - change (2 ^ 25) with 33554432 in *.
    assert (H1 : z * N2 <= C * 10485760 * N2) by (apply Z.mul_le_mono_nonneg_r; lia).
    assert (H2 : ((C - 1) * 10485760 + 1) * N2 <= z * N2)
      by (apply Z.mul_le_mono_nonneg_r; lia).
    replace (z * (33554432 * N2)) with (33554432 * (z * N2)) in Hdiv by ring.
    replace (C * 10485760 * N2) with (10485760 * (C * N2)) in H1 by ring.
    replace (((C - 1) * 10485760 + 1) * N2)
      with (10485760 * (C * N2) - 10485760 * N2 + N2) in H2 by ring.
    replace ((C - 1) * (33554432 * N2)) with (33554432 * (C * N2) - 33554432 * N2) by ring.
    replace (C * (33554432 * N2)) with (33554432 * (C * N2)) by ring.
    set (W := z * N2) in *. clearbody W. set (P := C * N2) in *. clearbody P.
    destruct HR as [(Hlt & HR) | (Hge & h & HR)]; lia.
Qed.

Lemma Zdigits2_bounds q :
  0 < q -> 0 < Zdigits2 q /\ 2 ^ (Zdigits2 q - 1) <= q < 2 ^ Zdigits2 q.
Proof.
  intros Hq. destruct q as [ | p | p ]; try lia.
  cbn [Zdigits2]. rewrite digits2_pos_size.
  assert (Hs : Zpos (Pos.size p) = Z.succ (Z.log2 (Zpos p))) by (destruct p; cbn; lia).
  rewrite Hs. split; [ pose proof (Z.log2_nonneg (Zpos p)); lia | ].
  replace (Z.succ (Z.log2 (Zpos p)) - 1) with (Z.log2 (Zpos p)) by lia.
  apply Z.log2_spec. lia.
Qed.

(** The core of the division of [z] by the part size: the quotient of
    [z * 2^(77 - d)] for a [z] of [d <= 54] bits. *)
Lemma SFdiv_core_part_size z :
  0 < z < 2 ^ 54 ->
  let s := 77 - Zdigits2 z in
  SFdiv_core_binary prec emax z 0 PresignedUrl.part_size 0
  = (z * 2 ^ s / PresignedUrl.part_size, - s,
     new_location PresignedUrl.part_size (z * 2 ^ s mod PresignedUrl.part_size)).
Proof.
  intros Hz s.
  destruct (Zdigits2_bounds z) as [Hd Hb]; [ lia | ].
  assert (Hd54 : Zdigits2 z <= 54).
  { destruct (Z_le_gt_dec (Zdigits2 z) 54) as [ | Hgt ]; [ assumption | exfalso ].
    assert (2 ^ 54 <= 2 ^ (Zdigits2 z - 1)) by (apply Z.pow_le_mono_r; lia). lia. }
  unfold SFdiv_core_binary.
  change (Zdigits2 PresignedUrl.part_size) with 24.
  unfold fexp, emin, prec, emax.
  replace (Z.min (Z.max (Zdigits2 z + 0 - (24 + 0) - 53) (3 - 1024 - 53)) (0 - 0))
    with (- s) by (unfold s; lia).
  replace (0 - 0 - - s) with s by lia.
  assert (Hs : 0 < s) by (unfold s; lia).
  destruct s as [ | ps | ps ] eqn:Es; try lia.
  rewrite Z.shiftl_mul_pow2 by lia.
  unfold Z.div, Z.modulo.
  destruct (Z.div_eucl (z * 2 ^ Z.pos ps) PresignedUrl.part_size) as [q r].
  reflexivity.
Qed.

Lemma ceil_shift_between M T C :
  0 < T -> (C - 1) * T < M <= C * T -> - ((- M) / T) = C.
Proof.
  intros HT HM. rewrite <- (Z.div_unique (- M) T (- C) (C * T - M)); lia.
Qed.

(** Up to 10 * 2^50 bytes, the part count is the exact ceiling. *)
Lemma count_parts_exact z :
  0 < z <= 10 * 2 ^ 50 ->
  PresignedUrl.count_parts (JInt z) = inr (ceil_div z PresignedUrl.part_size).
Proof.
  intros Hz.
  assert (Hz54 : 0 < z < 2 ^ 54) by lia.
  destruct (Zdigits2_bounds z) as [Hd Hb]; [ lia | ].
  assert (Hd54 : Zdigits2 z <= 54).
  { destruct (Z_le_gt_dec (Zdigits2 z) 54) as [ | Hgt ]; [ assumption | exfalso ].
    assert (2 ^ 54 <= 2 ^ (Zdigits2 z - 1)) by (apply Z.pow_le_mono_r; lia). lia. }
  pose proof (SFdiv_core_part_size z Hz54) as Hcore. cbv zeta in Hcore.
  set (d := Zdigits2 z) in *. set (s := 77 - d) in *.
  set (N := 2 ^ s) in *.
  set (q := z * N / PresignedUrl.part_size) in *.
  set (r := z * N mod PresignedUrl.part_size) in *.
  assert (Hb0 : 0 < PresignedUrl.part_size) by reflexivity.
  assert (Hdiv : z * N = q * PresignedUrl.part_size + r).
  { unfold q, r. rewrite (Z.mul_comm (z * N / PresignedUrl.part_size)).
    apply Z.div_mod. lia. }
  assert (Hr : 0 <= r < PresignedUrl.part_size) by (apply Z.mod_pos_bound; lia).
  assert (HW : 2 ^ 76 <= z * N < 2 ^ 77).
  { replace (2 ^ 76) with (2 ^ (d - 1) * N)
      by (unfold N, s; rewrite <- Z.pow_add_r by lia; f_equal; lia).
    replace (2 ^ 77) with (2 ^ d * N)
      by (unfold N, s; rewrite <- Z.pow_add_r by lia; f_equal; lia).
    assert (0 < N) by (apply Z.pow_pos_nonneg; unfold s; lia).
    split; [ apply Z.mul_le_mono_nonneg_r | apply Z.mul_lt_mono_pos_r ]; lia. }
  assert (Hq : 2 ^ 52 <= q < 2 ^ 54).
  { clearbody q r N. unfold PresignedUrl.part_size in *.
    change (10 * 1024 * 1024) with 10485760 in *.
    change (2 ^ 76) with 75557863725914323419136 in HW.
    change (2 ^ 77) with 151115727451828646838272 in HW.
    change (2 ^ 52) with 4503599627370496. change (2 ^ 54) with 18014398509481984.
    lia. }
  assert (Hreg : (N = 2 ^ 23 /\ z <= 10 * 2 ^ 50) \/ N = 2 ^ 24
                 \/ (exists N2, 0 < N2 /\ N = 2 ^ 25 * N2)).
  { destruct (Z.eq_dec d 54) as [E | E]; [ left; split; [ unfold N, s; rewrite E; reflexivity | lia ] | ].
    destruct (Z.eq_dec d 53) as [E' | E']; [ right; left; unfold N, s; rewrite E'; reflexivity | ].
    right; right. exists (2 ^ (52 - d)). split; [ apply Z.pow_pos_nonneg; lia | ].
    unfold N, s. rewrite <- Z.pow_add_r by lia. f_equal. lia. }
  pose proof (rounded_between z N q r ltac:(lia) Hreg Hdiv Hr ltac:(lia)) as HR.
  destruct (binary_round_aux_normal q (- s) (new_location PresignedUrl.part_size r) Hq)
    as (M & E & Hbra & HE & HM); [ unfold s; lia | ].
  unfold PresignedUrl.count_parts, py_truediv, int_truediv.
  change (PresignedUrl.part_size =? 0) with false. cbv iota.
  destruct z as [ | p | p ]; try lia.
  unfold float_of_Z at 1.
  change (float_of_Z PresignedUrl.part_size)
    with (S754_finite false (Z.to_pos PresignedUrl.part_size) 0).
  unfold SFdiv.
  change (Z.pos (Z.to_pos PresignedUrl.part_size)) with PresignedUrl.part_size.
  rewrite Hcore. cbn [xorb]. rewrite Hbra. cbn [math_ceil].
  replace (0 <=? E) with false by (symmetry; apply Z.leb_gt; unfold s in HE; lia).
  f_equal. unfold ceil_shift.
  apply ceil_shift_between; [ apply Z.pow_pos_nonneg; unfold s in HE; lia | ].
  assert (HN : N = 2 ^ (E - - s) * 2 ^ (- E)).
  { unfold N. rewrite <- Z.pow_add_r by (unfold s in *; lia). f_equal. lia. }
  rewrite <- HM, HN in HR.
  assert (HK : 0 < 2 ^ (E - - s)) by (apply Z.pow_pos_nonneg; lia).
  set (K := 2 ^ (E - - s)) in *. set (T := 2 ^ (- E)) in *.
  set (C := ceil_div (Z.pos p) PresignedUrl.part_size) in *.
  clearbody K T C. clear - HR HK.
  split.
  - apply (Z.mul_lt_mono_pos_r K); [ assumption | ].
    replace ((C - 1) * T * K) with ((C - 1) * (K * T)) by ring.
    rewrite (Z.mul_comm (Z.pos M) K) in HR |- *. rewrite Z.mul_comm. 
    rewrite (Z.mul_comm K (Z.pos M)). lia.
  - apply (Z.mul_le_mono_pos_r _ _ K); [ assumption | ].
    replace (C * T * K) with (C * (K * T)) by ring. lia.
Qed.

(** ** The strategy decision *)

Lemma is_large_absent : PresignedUrl.is_large JNull = inr JNull.
Proof. reflexivity. Qed.

Lemma is_large_small z :
  z <= large_file_threshold ->
  exists v, PresignedUrl.is_large (JInt z) = inr v /\ truthy v = false.
Proof.
  intros Hz. unfold PresignedUrl.is_large. cbn [truthy].
  destruct (z =? 0) eqn:E; cbn [negb].
  - exists (JInt z). cbn [truthy]. rewrite E. auto.
  - exists (JBool false). cbn [py_gt]. split; [ | reflexivity ].
    replace (z >? 100 * 1024 * 1024) with false; [ reflexivity | ].
    symmetry. unfold large_file_threshold in Hz. rewrite Z.gtb_ltb. apply Z.ltb_ge. exact Hz.
Qed.

Lemma is_large_big z :
  large_file_threshold < z -> PresignedUrl.is_large (JInt z) = inr (JBool true).
Proof.
  intros Hz. unfold PresignedUrl.is_large, large_file_threshold in *. cbn [truthy].
  replace (z =? 0) with false by (symmetry; apply Z.eqb_neq; lia).
  cbn [negb py_gt].
  replace (z >? 100 * 1024 * 1024) with true; [ reflexivity | ].
  symmetry. rewrite Z.gtb_ltb. apply Z.ltb_lt. exact Hz.
Qed.

(** ** [range] *)

Lemma py_range_length lo hi : List.length (py_range lo hi) = Z.to_nat (hi - lo).
Proof. unfold py_range. rewrite length_map, length_seq. reflexivity. Qed.

Lemma py_range_nth lo hi i :
  (i < Z.to_nat (hi - lo))%nat -> nth i (py_range lo hi) 0 = lo + Z.of_nat i.
Proof.
  intros Hi. unfold py_range.
  rewrite (nth_indep _ 0 (lo + Z.of_nat 0))
    by (rewrite length_map, length_seq; exact Hi).
  rewrite (map_nth (fun j => lo + Z.of_nat j)). rewrite seq_nth by exact Hi.
  reflexivity.
Qed.

(** The part numbers of a planned list, entry by entry. *)
Lemma part_numbers_by_index urls n :
  0 <= n ->
  map part_number_of urls = map (fun pn => inr (JInt pn)) (py_range 1 (n + 1)) ->
  Z.of_nat (List.length urls) = n
  /\ forall i, (i < List.length urls)%nat ->
       part_number_of (nth i urls JNull) = inr (JInt (Z.of_nat i + 1)).
Proof.
  intros Hn Hmap.
  assert (Hlen : List.length urls = Z.to_nat n).
  { rewrite <- (length_map part_number_of), Hmap, length_map, py_range_length.
    f_equal. lia. }
  split; [ lia | ].
  intros i Hi.
  rewrite <- (map_nth part_number_of), Hmap.
  rewrite (nth_indep _ (part_number_of JNull) (inr (JInt 0)))
    by (rewrite length_map, py_range_length; lia).
  rewrite (map_nth (fun pn : Z => @inr exn json (JInt pn))).
  rewrite py_range_nth by lia. do 2 f_equal. lia.
Qed.

(** ** The planner, end to end *)

Section Plans.
Variable client : s3.
Variable environ : list (string * string).
Variable builtin_str : json -> string.

Lemma plan_invalid (ev : event) ctx d :
  is_options (httpMethod ev) = false ->
  json_loads_body (event_body ev) = inr (JObj d) ->
  truthy (field d "fileName") = false \/ truthy (field d "fileType") = false ->
  PresignedUrl.lambda_handler client environ builtin_str ev ctx
  = (inr invalid_plan_request, []).
Proof.
  intros Hm Hb Hf.
  unfold PresignedUrl.lambda_handler. rewrite Hm.
  unfold run, try_except, PresignedUrl.try_body, bind, eval.
  rewrite Hb. cbn [ret]. rewrite !py_get_field. cbn [ret].
  destruct Hf as [Hf | Hf]; rewrite Hf; [ | rewrite orb_true_r ]; reflexivity.
Qed.

(** Past the validation, the bucket lookup and the key: the strategy
    decision and one of the two modes. *)
Lemma plan_valid (ev : event) ctx d bucket_name key :
  is_options (httpMethod ev) = false ->
  json_loads_body (event_body ev) = inr (JObj d) ->
  truthy (field d "fileName") = true ->
  truthy (field d "fileType") = true ->
  environ_getitem environ "UPLOAD_BUCKET_NAME" = inr bucket_name ->
  PresignedUrl.object_key builtin_str ctx (field d "fileName") = inr key ->
  PresignedUrl.lambda_handler client environ builtin_str ev ctx =
  plan_outcome
    (bind (eval (PresignedUrl.is_large (field d "fileSize")))
       (fun is_large_file =>
          if truthy is_large_file
          then PresignedUrl.multipart client bucket_name key
                 (field d "fileType") (field d "fileSize")
          else PresignedUrl.single client bucket_name key
                 (field d "fileType"))).
Proof.
  intros Hm Hb Hn Ht He Hk.
  unfold PresignedUrl.lambda_handler. rewrite Hm.
  unfold plan_outcome, run, try_except, PresignedUrl.try_body, bind, eval.
  rewrite Hb. cbn [ret]. rewrite !py_get_field. cbn [ret].
  rewrite Hn, Ht. cbn [negb orb]. rewrite He. cbn [ret]. rewrite Hk.
  reflexivity.
Qed.

(** A valid request whose size is falsy or not above the threshold is a
    single presigned put. *)
Lemma plan_single (ev : event) ctx d bucket_name key v :
  is_options (httpMethod ev) = false ->
  json_loads_body (event_body ev) = inr (JObj d) ->
  truthy (field d "fileName") = true ->
  truthy (field d "fileType") = true ->
  environ_getitem environ "UPLOAD_BUCKET_NAME" = inr bucket_name ->
  PresignedUrl.object_key builtin_str ctx (field d "fileName") = inr key ->
  PresignedUrl.is_large (field d "fileSize") = inr v ->
  truthy v = false ->
  PresignedUrl.lambda_handler client environ builtin_str ev ctx
  = plan_outcome (PresignedUrl.single client bucket_name key (field d "fileType")).
Proof.
  intros Hm Hb Hn Ht He Hk Hl Hv.
  rewrite (plan_valid ev ctx d bucket_name key)
    by assumption.
  unfold plan_outcome, run, try_except, bind. rewrite Hl. cbn [eval ret].
  rewrite Hv. reflexivity.
Qed.

(** A valid request above the threshold is a multipart session. *)
Lemma plan_multipart (ev : event) ctx d bucket_name key z :
  is_options (httpMethod ev) = false ->
  json_loads_body (event_body ev) = inr (JObj d) ->
  truthy (field d "fileName") = true ->
  truthy (field d "fileType") = true ->
  environ_getitem environ "UPLOAD_BUCKET_NAME" = inr bucket_name ->
  PresignedUrl.object_key builtin_str ctx (field d "fileName") = inr key ->
  field d "fileSize" = JInt z ->
  large_file_threshold < z ->
  PresignedUrl.lambda_handler client environ builtin_str ev ctx
  = plan_outcome (PresignedUrl.multipart client bucket_name key
                    (field d "fileType") (JInt z)).
Proof.
  intros Hm Hb Hn Ht He Hk Hs Hz.
  rewrite (plan_valid ev ctx d bucket_name key)
    by assumption.
  unfold plan_outcome, run, try_except, bind. rewrite Hs, (is_large_big z Hz).
  reflexivity.
Qed.
End Plans.

(** ** Every invocation is answered *)

Lemma try_except_answers {A} (body : M A) (h1 h2 : exn -> M A) :
  (forall e w, exists a w', h1 e w = (inr a, w')) ->
  (forall e w, exists a w', h2 e w = (inr a, w')) ->
  forall w, exists a w', try_except body h1 h2 w = (inr a, w').
Proof.
  intros H1 H2 w. unfold try_except.
  destruct (body w) as [[e | a] w'].
  - destruct (is_client_error e); [ apply H1 | apply H2 ].
  - exists a, w'. reflexivity.
Qed.

(** No exception escapes the planner on an event that is a dict: whatever
    its entries, the context, the environment and the store, it returns a
    response. *)
Lemma planner_always_answers client environ builtin_str (ev : event) ctx :
  exists r, fst (PresignedUrl.lambda_handler client environ builtin_str ev ctx) = inr r.
Proof.
  unfold PresignedUrl.lambda_handler.
  destruct (is_options (httpMethod ev)); [ exists preflight; reflexivity | ].
  unfold run.
  destruct (try_except_answers (PresignedUrl.try_body client environ builtin_str ev ctx)
              PresignedUrl.on_client_error PresignedUrl.on_exception)
    with (w := mkWorld [] []) as (r & w' & Hrun);
    try (intros e w; eexists; eexists; reflexivity).
  rewrite Hrun. exists r. reflexivity.
Qed.

(** Nor the finalizer, the abort included. *)
Lemma finalizer_always_answers client environ (ev : event) ctx :
  exists r, fst (CompleteMultipart.lambda_handler client environ ev ctx) = inr r.
Proof.
  unfold CompleteMultipart.lambda_handler.
  destruct (is_options (httpMethod ev)); [ exists preflight; reflexivity | ].
  unfold run.
  destruct (try_except_answers (CompleteMultipart.try_body client environ ev)
              (CompleteMultipart.on_client_error client)
              CompleteMultipart.on_exception)
    with (w := mkWorld [] []) as (r & w' & Hrun).
  - intros e w. unfold CompleteMultipart.on_client_error.
    unfold bind at 1. unfold print at 1. unfold bind at 1.
    destruct (try_except_answers (CompleteMultipart.try_abort client)
                CompleteMultipart.on_abort_error CompleteMultipart.on_abort_error)
      with (w := mkWorld (frame w) (trace w ++ [Print [Lit "AWS error completing multipart upload: "; Exn e]])%list)
      as (u & w' & Hrun);
      try (intros e' w0; eexists; eexists; reflexivity).
    unfold try_catch. rewrite Hrun. eexists; eexists; reflexivity.
  - intros e w; eexists; eexists; reflexivity.
  - rewrite Hrun. exists r. reflexivity.
Qed.

(** ** The arithmetic on sample values *)

(** [1 / 3] is [0x1.5555555555555p-2], [(2**53 + 1) / 3] is
    [0x1.5555555555556p+51]. *)
Example int_truediv_third :
  int_truediv 1 3 = inr (S754_finite false 6004799503160661 (-54)).
Proof. reflexivity. Qed.

Example int_truediv_beyond_53_bits :
  int_truediv (2 ^ 53 + 1) 3 = inr (S754_finite false 6004799503160662 (-1)).
Proof. reflexivity. Qed.

Example int_truediv_overflow :
  int_truediv (10 ^ 400) 7
  = inl (Exception "OverflowError" "integer division result too large for a float").
Proof. vm_compute. reflexivity. Qed.

(** 250 MiB makes 25 full parts, 104 MiB makes 11 parts. *)
Example count_parts_250_MiB : PresignedUrl.count_parts (JInt (250 * MiB)) = inr 25.
Proof. reflexivity. Qed.

Example count_parts_104_MiB : PresignedUrl.count_parts (JInt (104 * MiB)) = inr 11.
Proof. reflexivity. Qed.

Example int_base16_request_id : int_base16 "8d2c41f0" = inr 2368487920.
Proof. reflexivity. Qed.

Example int_base16_prefix_and_underscores : int_base16 " -0x_ff_0 " = inr (-4080).
Proof. reflexivity. Qed.

Example int_base16_not_hex :
  int_base16 "request-"
  = inl (Exception "ValueError" "invalid literal for int() with base 16").
Proof. reflexivity. Qed.

(** * The claims *)

(** C5. A valid request (fileName and fileType non-empty) whose fileSize is
    absent, or an integer not above the 100 MiB threshold, is planned in
    single-shot mode: the only store call is one presigned put for the object
    key with the declared content type, session initiation is never called,
    and when the signing succeeds the result is the single-shot response
    with that one authorization. *)
Theorem single_shot_below_threshold
  (client : s3) (environ : list (string * string)) (builtin_str : json -> string)
  (ev : event) (ctx : context) (d : list (string * json))
  (bucket_name key : string) :
  is_options (httpMethod ev) = false ->
  json_loads_body (event_body ev) = inr (JObj d) ->
  truthy (field d "fileName") = true ->
  truthy (field d "fileType") = true ->
  (field d "fileSize" = JNull
   \/ exists z, field d "fileSize" = JInt z /\ z <= large_file_threshold) ->
  environ_getitem environ "UPLOAD_BUCKET_NAME" = inr bucket_name ->
  PresignedUrl.object_key builtin_str ctx (field d "fileName") = inr key ->
  let c := put_object_url bucket_name key (field d "fileType") in
  let out := PresignedUrl.lambda_handler client environ builtin_str ev ctx in
  calls (snd out) = [Call c (client [] c)]
  /\ filter is_create (snd out) = []
  /\ forall url, client [] c = inr url ->
       out = (inr (single_response key url), [Call c (inr url)]).
Proof.
  intros Hm Hb Hn Ht Hs He Hk c out.
  assert (Hl : exists v, PresignedUrl.is_large (field d "fileSize") = inr v
                         /\ truthy v = false).
  { destruct Hs as [-> | (z & -> & Hz)].
    - exists JNull. split; reflexivity.
    - apply is_large_small. exact Hz. }
  destruct Hl as (v & Hl & Hv).
  assert (Hout : out = plan_outcome
                         (PresignedUrl.single client bucket_name key (field d "fileType")))
    by (apply (plan_single client environ builtin_str ev ctx d bucket_name key v);
        assumption).
  rewrite Hout, single_run. fold c.
  destruct (client [] c) as [e | url].
  - repeat split; try (destruct e; reflexivity). intros url H; discriminate H.
  - repeat split. intros url' H. inversion H; subst. reflexivity.
Qed.

Lemma single_shot_below_threshold_witness :
  PresignedUrl.lambda_handler accepting sample_environ sample_str
    (post (plan_request (JInt (100 * MiB)))) sample_context
  = (inr (single_response "uploads/2368487920-video.mp4"
            (JStr "https://signed.example/url")),
     [Call (put_object_url "uploads-bucket" "uploads/2368487920-video.mp4"
              (JStr "video/mp4"))
           (inr (JStr "https://signed.example/url"))]).
Proof.
  apply (single_shot_below_threshold accepting sample_environ sample_str
           (post (plan_request (JInt (100 * MiB)))) sample_context
           (plan_request (JInt (100 * MiB)))
           "uploads-bucket" "uploads/2368487920-video.mp4");
    try reflexivity.
  right. exists (100 * MiB). split; [ reflexivity | vm_compute; discriminate ].
Defined.

(** C10. A request with non-empty fileName and fileType whose fileSize is an
    integer that is zero or negative is planned exactly like the same request
    without a fileSize (same result, same trace, whatever the store does), the
    size is never checked for being non-negative, and when the signing
    succeeds the plan is the single-shot response. *)
Theorem nonpositive_size_planned_as_absent
  (client : s3) (environ : list (string * string)) (builtin_str : json -> string)
  (m : json) (ctx : context) (d d' : list (string * json)) (z : Z) :
  z <= 0 ->
  field d "fileSize" = JInt z ->
  field d' "fileSize" = JNull ->
  field d' "fileName" = field d "fileName" ->
  field d' "fileType" = field d "fileType" ->
  let planned :=
    PresignedUrl.lambda_handler client environ builtin_str
      (mkEvent m (body_text (JObj d))) ctx in
  planned = PresignedUrl.lambda_handler client environ builtin_str
              (mkEvent m (body_text (JObj d'))) ctx
  /\ forall bucket_name key url,
       is_options m = false ->
       truthy (field d "fileName") = true ->
       truthy (field d "fileType") = true ->
       environ_getitem environ "UPLOAD_BUCKET_NAME" = inr bucket_name ->
       PresignedUrl.object_key builtin_str ctx (field d "fileName") = inr key ->
       client [] (put_object_url bucket_name key (field d "fileType")) = inr url ->
       planned
       = (inr (single_response key url),
          [Call (put_object_url bucket_name key (field d "fileType")) (inr url)]).
Proof.
  intros Hz Hs Hs' Hn Ht planned.
  destruct (is_large_small z) as (v & Hl & Hv);
    [ unfold large_file_threshold; lia | ].
  split.
  - unfold planned, PresignedUrl.lambda_handler. cbn [httpMethod event_body].
    destruct (is_options m); [ reflexivity | ].
    unfold run, try_except, PresignedUrl.try_body, bind, eval.
    cbn [event_body json_loads_body ret]. rewrite !py_get_field. cbn [ret].
    rewrite Hs, Hs', Hn, Ht.
    destruct (negb (truthy (field d "fileName")) || negb (truthy (field d "fileType")));
      [ reflexivity | ].
    destruct (environ_getitem environ "UPLOAD_BUCKET_NAME"); [ reflexivity | ].
    cbn [ret].
    destruct (PresignedUrl.object_key builtin_str ctx (field d "fileName"));
      [ reflexivity | ].
    cbn [ret]. rewrite Hl, is_large_absent. cbn [ret]. rewrite Hv. reflexivity.
  - intros bucket_name key url Hm Hfn Hft He Hk Hu.
    unfold planned.
    rewrite (plan_single client environ builtin_str _ ctx d bucket_name key v);
      try assumption; try reflexivity.
    + rewrite single_run, Hu. reflexivity.
    + rewrite Hs. exact Hl.
Qed.

Lemma nonpositive_size_planned_as_absent_witness :
  PresignedUrl.lambda_handler accepting sample_environ sample_str
    (post (plan_request (JInt (-5)))) sample_context
  = PresignedUrl.lambda_handler accepting sample_environ sample_str
      (post [ ("fileName", JStr "video.mp4"); ("fileType", JStr "video/mp4") ])
      sample_context.
Proof.
  apply (nonpositive_size_planned_as_absent accepting sample_environ sample_str
           (JStr "POST") sample_context (plan_request (JInt (-5)))
           [ ("fileName", JStr "video.mp4"); ("fileType", JStr "video/mp4") ]
           (-5));
    [ lia | reflexivity .. ].
Defined.

(** C7 does not hold of every call.  A POST whose [body] is [None] has no
    fileName, no uploadId and no parts, yet it is not answered with the 400:
    [json.loads] raises a [TypeError] inside the [try], before the fields
    are looked at, and each handler prints it and answers with its generic
    500.  No store call is made. *)
Lemma null_body_is_answered_500_not_400 :
  PresignedUrl.lambda_handler accepting sample_environ sample_str
    (mkEvent (JStr "POST") body_not_text) sample_context
  = (inr plan_generic_failure,
     [ plan_generic_line
         (Exception "TypeError" "the JSON object must be str, bytes or bytearray") ])
  /\ CompleteMultipart.lambda_handler accepting sample_environ
       (mkEvent (JStr "POST") body_not_text) sample_context
     = (inr generic_failure,
        [ failure_line
            (Exception "TypeError" "the JSON object must be str, bytes or bytearray") ])
  /\ statusCode plan_generic_failure = 500
  /\ statusCode generic_failure = 500
  /\ statusCode invalid_plan_request = 400
  /\ statusCode invalid_finalize_request = 400.
Proof.
  repeat (split; [ reflexivity | ]). reflexivity.
Qed.

(** C7, for the calls of which it holds: those that are not a preflight and
    whose body parses to a JSON object (an absent body is parsed as the
    default ['{}']).  A planning request whose fileName or fileType is
    missing or empty, and a finalizing request whose uploadId or key is
    missing or empty or whose parts are missing, empty or not a list, is
    answered with the 400 response and an empty trace: no store call of any
    kind is made before reporting it. *)
Theorem invalid_request_makes_no_store_call
  (client : s3) (environ : list (string * string)) (builtin_str : json -> string)
  (ev : event) (ctx : context) (d : list (string * json)) :
  is_options (httpMethod ev) = false ->
  json_loads_body (event_body ev) = inr (JObj d) ->
  (truthy (field d "fileName") = false \/ truthy (field d "fileType") = false ->
   PresignedUrl.lambda_handler client environ builtin_str ev ctx
   = (inr invalid_plan_request, []))
  /\ (truthy (field d "uploadId") = false \/ truthy (field d "key") = false
      \/ truthy (field d "parts") = false
      \/ isinstance_list (field d "parts") = false ->
      CompleteMultipart.lambda_handler client environ ev ctx
      = (inr invalid_finalize_request, [])).
Proof.
  intros Hm Hb. split; intros Hf.
  - apply (plan_invalid client environ builtin_str ev ctx d); assumption.
  - apply (finalize_invalid client environ ev ctx d); assumption.
Qed.

Lemma invalid_request_makes_no_store_call_witness :
  PresignedUrl.lambda_handler accepting sample_environ sample_str
    (post [ ("fileName", JStr ""); ("parts", JStr "not a list") ]) sample_context
  = (inr invalid_plan_request, [])
  /\ CompleteMultipart.lambda_handler accepting sample_environ
       (post [ ("fileName", JStr ""); ("parts", JStr "not a list") ]) sample_context
     = (inr invalid_finalize_request, []).
Proof.
  destruct (invalid_request_makes_no_store_call accepting sample_environ sample_str
              (post [ ("fileName", JStr ""); ("parts", JStr "not a list") ])
              sample_context
              [ ("fileName", JStr ""); ("parts", JStr "not a list") ]
              eq_refl eq_refl) as [Hplan Hfinal].
  split; [ apply Hplan | apply Hfinal ]; left; reflexivity.
Defined.

(** C6. When the store accepts the completion, the finalizer answers
    [success: true] with the location, key and entity tag the store reported
    (the request's key and empty strings where the store reports none); the
    completion is the only store call, so the abort is never invoked. *)
Theorem accepted_completion_succeeds
  (client : s3) (environ : list (string * string))
  (ev : event) (ctx : context) (d : list (string * json)) (l : list json)
  (bucket_name : string) (reported : list (string * json)) :
  is_options (httpMethod ev) = false ->
  json_loads_body (event_body ev) = inr (JObj d) ->
  truthy (field d "uploadId") = true ->
  truthy (field d "key") = true ->
  field d "parts" = JList l ->
  l <> [] ->
  forallb has_fields l = true ->
  environ_getitem environ "UPLOAD_BUCKET_NAME" = inr bucket_name ->
  let c := completion bucket_name (field d "key") (field d "uploadId") l in
  client [] c = inr (JObj reported) ->
  let out := CompleteMultipart.lambda_handler client environ ev ctx in
  out = (inr (success_response
                (match lookup "Location" reported with
                 | Some v => v | None => JStr "" end)
                (match lookup "Key" reported with
                 | Some v => v | None => field d "key" end)
                (match lookup "ETag" reported with
                 | Some v => v | None => JStr "" end)),
         [Call c (inr (JObj reported))])
  /\ filter is_abort (snd out) = [].
Proof.
  intros Hm Hb Hu Hk Hp Hne Hall He c Hc out.
  assert (Hout := finalize_reaches_completion client environ ev ctx d l bucket_name
                    Hm Hb Hu Hk Hp Hne Hall He).
  cbv zeta in Hout. fold c in Hout. rewrite Hc in Hout.
  unfold out. rewrite Hout. split; reflexivity.
Qed.

Lemma accepted_completion_succeeds_witness :
  CompleteMultipart.lambda_handler accepting sample_environ
    (post (finalize_request (JList sample_manifest))) sample_context
  = (inr (success_response (JStr "https://bucket.example/object")
            (JStr "uploads/1-video.mp4") (JStr "final-etag")),
     [Call (completion "uploads-bucket" (JStr "uploads/1-video.mp4")
              (JStr "upload-1") sample_manifest)
           (inr (JObj [ ("Location", JStr "https://bucket.example/object");
                        ("Key", JStr "uploads/1-video.mp4");
                        ("ETag", JStr "final-etag") ]))]).
Proof.
  apply (accepted_completion_succeeds accepting sample_environ
           (post (finalize_request (JList sample_manifest))) sample_context
           (finalize_request (JList sample_manifest)) sample_manifest
           "uploads-bucket"
           [ ("Location", JStr "https://bucket.example/object");
             ("Key", JStr "uploads/1-video.mp4");
             ("ETag", JStr "final-etag") ]);
    try reflexivity.
  discriminate.
Defined.

(** C3. When the store rejects the completion (a [ClientError]), the
    finalizer calls the abort of that session exactly once, after the failed
    completion has been recorded, takes the outcome of the abort (success or
    failure) before it returns, and answers with the store error of the
    completion whatever that outcome is - in particular when the abort
    succeeds. *)
Theorem rejected_completion_aborts_once
  (client : s3) (environ : list (string * string))
  (ev : event) (ctx : context) (d : list (string * json)) (l : list json)
  (bucket_name : string) (msg : string) :
  is_options (httpMethod ev) = false ->
  json_loads_body (event_body ev) = inr (JObj d) ->
  truthy (field d "uploadId") = true ->
  truthy (field d "key") = true ->
  field d "parts" = JList l ->
  l <> [] ->
  forallb has_fields l = true ->
  environ_getitem environ "UPLOAD_BUCKET_NAME" = inr bucket_name ->
  let upload_id := field d "uploadId" in
  let key := field d "key" in
  let c := completion bucket_name key upload_id l in
  let a := abort bucket_name key upload_id in
  client [] c = inl (ClientError msg) ->
  let before := [ Call c (inl (ClientError msg));
                  completion_failed_line (ClientError msg) ] in
  let aborted := client before a in
  let out := CompleteMultipart.lambda_handler client environ ev ctx in
  out = (inr store_error,
         (before ++ [ Call a aborted; abort_line upload_id key aborted ])%list)
  /\ filter is_abort (snd out) = [ Call a aborted ]
  /\ filter is_complete (snd out) = [ Call c (inl (ClientError msg)) ].
Proof.
  intros Hm Hb Hu Hk Hp Hne Hall He upload_id key c a Hc before aborted out.
  assert (Hout := finalize_reaches_completion client environ ev ctx d l bucket_name
                    Hm Hb Hu Hk Hp Hne Hall He).
  cbv zeta in Hout. fold upload_id key in Hout. fold c a in Hout.
  rewrite Hc in Hout. fold before aborted in Hout.
  unfold out. rewrite Hout. cbn [snd].
  repeat split; destruct aborted; reflexivity.
Qed.

Lemma rejected_completion_aborts_once_witness :
  CompleteMultipart.lambda_handler rejecting sample_environ
    (post (finalize_request (JList sample_manifest))) sample_context
  = (inr store_error,
     [ Call (completion "uploads-bucket" (JStr "uploads/1-video.mp4")
               (JStr "upload-1") sample_manifest)
            (inl (ClientError "InvalidPart"));
       completion_failed_line (ClientError "InvalidPart");
       Call (abort "uploads-bucket" (JStr "uploads/1-video.mp4") (JStr "upload-1"))
            (inr (JObj []));
       aborted_line (JStr "upload-1") (JStr "uploads/1-video.mp4") ]).
Proof.
  apply (rejected_completion_aborts_once rejecting sample_environ
           (post (finalize_request (JList sample_manifest))) sample_context
           (finalize_request (JList sample_manifest)) sample_manifest
           "uploads-bucket" "InvalidPart");
    try reflexivity.
  discriminate.
Defined.

(** C4, as stated, fails: with a store that rejects the completion and then
    the abort, the finalizer's answer is the plain store error, the very
    answer it gives when the abort succeeds; its body holds the fixed message
    and neither of the two errors. *)
Lemma failed_abort_answers_plain_store_error :
  fst (CompleteMultipart.lambda_handler rejecting_twice sample_environ
         (post (finalize_request (JList sample_manifest))) sample_context)
  = inr store_error
  /\ fst (CompleteMultipart.lambda_handler rejecting_twice sample_environ
            (post (finalize_request (JList sample_manifest))) sample_context)
     = fst (CompleteMultipart.lambda_handler rejecting sample_environ
              (post (finalize_request (JList sample_manifest))) sample_context)
  /\ body store_error
     = json_dumps
         (JObj [ ("error", JStr "AWS service error completing multipart upload") ]).
Proof. repeat split. Qed.

(** C4, amended. When the store rejects the completion and the compensating
    abort fails as well, the finalizer still answers with the store error of
    the completion, as when the abort succeeds; the failure of the abort is
    printed, after the abort, and is no part of the answer. *)
Theorem failed_abort_is_printed_only
  (client : s3) (environ : list (string * string))
  (ev : event) (ctx : context) (d : list (string * json)) (l : list json)
  (bucket_name : string) (msg : string) (abort_error : exn) :
  is_options (httpMethod ev) = false ->
  json_loads_body (event_body ev) = inr (JObj d) ->
  truthy (field d "uploadId") = true ->
  truthy (field d "key") = true ->
  field d "parts" = JList l ->
  l <> [] ->
  forallb has_fields l = true ->
  environ_getitem environ "UPLOAD_BUCKET_NAME" = inr bucket_name ->
  let upload_id := field d "uploadId" in
  let key := field d "key" in
  let c := completion bucket_name key upload_id l in
  let a := abort bucket_name key upload_id in
  client [] c = inl (ClientError msg) ->
  let before := [ Call c (inl (ClientError msg));
                  completion_failed_line (ClientError msg) ] in
  client before a = inl abort_error ->
  CompleteMultipart.lambda_handler client environ ev ctx
  = (inr store_error,
     (before ++ [ Call a (inl abort_error); abort_failed_line abort_error ])%list).
Proof.
  intros Hm Hb Hu Hk Hp Hne Hall He upload_id key c a Hc before Ha.
  assert (Hout := finalize_reaches_completion client environ ev ctx d l bucket_name
                    Hm Hb Hu Hk Hp Hne Hall He).
  cbv zeta in Hout. fold upload_id key in Hout. fold c a in Hout.
  rewrite Hc in Hout. fold before in Hout. rewrite Ha in Hout.
  exact Hout.
Qed.

Lemma failed_abort_is_printed_only_witness :
  CompleteMultipart.lambda_handler rejecting_twice sample_environ
    (post (finalize_request (JList sample_manifest))) sample_context
  = (inr store_error,
     [ Call (completion "uploads-bucket" (JStr "uploads/1-video.mp4")
               (JStr "upload-1") sample_manifest)
            (inl (ClientError "InvalidPart"));
       completion_failed_line (ClientError "InvalidPart");
       Call (abort "uploads-bucket" (JStr "uploads/1-video.mp4") (JStr "upload-1"))
            (inl (ClientError "AccessDenied"));
       abort_failed_line (ClientError "AccessDenied") ]).
Proof.
  apply (failed_abort_is_printed_only rejecting_twice sample_environ
           (post (finalize_request (JList sample_manifest))) sample_context
           (finalize_request (JList sample_manifest)) sample_manifest
           "uploads-bucket" "InvalidPart" (ClientError "AccessDenied"));
    try reflexivity.
  discriminate.
Defined.

(** C9. When the manifest is a non-empty list holding an entry without an
    [ETag] or without a [PartNumber], the finalizer answers with the generic
    failure (neither the 400 response nor the store error) and its trace is
    the one printed line: the completion is never called and no abort is
    attempted. *)
Theorem manifest_entry_without_field_fails
  (client : s3) (environ : list (string * string))
  (ev : event) (ctx : context) (d : list (string * json)) (l : list json) :
  is_options (httpMethod ev) = false ->
  json_loads_body (event_body ev) = inr (JObj d) ->
  truthy (field d "uploadId") = true ->
  truthy (field d "key") = true ->
  field d "parts" = JList l ->
  Exists lacks_field l ->
  exists e,
    CompleteMultipart.lambda_handler client environ ev ctx
    = (inr generic_failure, [ failure_line e ])
    /\ is_client_error e = false
    /\ calls [ failure_line e ] = []
    /\ generic_failure <> invalid_finalize_request
    /\ generic_failure <> store_error.
Proof.
  intros Hm Hb Hu Hk Hp Hex.
  destruct (finalize_manifest_error client environ ev ctx d l Hm Hb Hu Hk Hp Hex)
    as (e & Hrun & He).
  exists e. repeat split; try assumption; discriminate.
Qed.

Lemma manifest_entry_without_field_fails_witness :
  exists e,
    CompleteMultipart.lambda_handler accepting sample_environ
      (post (finalize_request
               (JList [ JObj [ ("ETag", JStr "etag-1"); ("PartNumber", JInt 1) ];
                        JObj [ ("ETag", JStr "etag-2") ] ])))
      sample_context
    = (inr generic_failure, [ failure_line e ]).
Proof.
  destruct (manifest_entry_without_field_fails accepting sample_environ
              (post (finalize_request
                       (JList [ JObj [ ("ETag", JStr "etag-1"); ("PartNumber", JInt 1) ];
                                JObj [ ("ETag", JStr "etag-2") ] ])))
              sample_context
              (finalize_request
                 (JList [ JObj [ ("ETag", JStr "etag-1"); ("PartNumber", JInt 1) ];
                          JObj [ ("ETag", JStr "etag-2") ] ]))
              [ JObj [ ("ETag", JStr "etag-1"); ("PartNumber", JInt 1) ];
                JObj [ ("ETag", JStr "etag-2") ] ]
              eq_refl eq_refl eq_refl eq_refl eq_refl) as (e & Hrun & _).
  - apply Exists_cons_tl, Exists_cons_hd.
    exists [ ("ETag", JStr "etag-2") ]. split; [ reflexivity | right; reflexivity ].
  - exists e. exact Hrun.
Defined.

(** C2, as stated, fails: for 104 MiB the last of the 11 parts is 4 MiB,
    below the 5 MiB minimum, and the planner does not answer with the 400
    response: it opens the session and mints the 11 authorizations. *)
Lemma undersized_last_part_is_planned :
  last_part_size (104 * MiB) PresignedUrl.part_size
    (ceil_div (104 * MiB) PresignedUrl.part_size) < minimum_part_size
  /\ exists urls t,
       PresignedUrl.lambda_handler accepting sample_environ sample_str
         (post (plan_request (JInt (104 * MiB)))) sample_context
       = (inr (multipart_response (JStr "upload-1")
                 "uploads/2368487920-video.mp4" urls), t)
       /\ List.length urls = 11%nat
       /\ List.length (filter is_presign t) = 11%nat
       /\ multipart_response (JStr "upload-1") "uploads/2368487920-video.mp4" urls
          <> invalid_plan_request.
Proof.
  split; [ reflexivity | ].
  eexists. eexists. split; [ vm_compute; reflexivity | ].
  repeat split. discriminate.
Qed.

(** C2, amended. The planner does not validate the size of the last part:
    for every integer fileSize above the 100 MiB threshold and up to
    10 * 2^50 bytes - the last part smaller than the 5 MiB minimum or not,
    fileSize exactly divisible by the part size or not - and a store that
    accepts the calls, the plan succeeds in multipart mode: one session
    initiation, then one authorization per part number 1, 2, ..., up to the
    exact ceiling of fileSize / partSize, with the part size of 10 MiB. *)
Theorem multipart_plan_has_no_size_validation
  (client : s3) (environ : list (string * string)) (builtin_str : json -> string)
  (ev : event) (ctx : context) (d : list (string * json))
  (bucket_name key : string) (z : Z) (created upload_id : json) :
  is_options (httpMethod ev) = false ->
  json_loads_body (event_body ev) = inr (JObj d) ->
  truthy (field d "fileName") = true ->
  truthy (field d "fileType") = true ->
  field d "fileSize" = JInt z ->
  large_file_threshold < z <= 10 * 2 ^ 50 ->
  environ_getitem environ "UPLOAD_BUCKET_NAME" = inr bucket_name ->
  PresignedUrl.object_key builtin_str ctx (field d "fileName") = inr key ->
  let create :=
    create_multipart_upload (JStr bucket_name) (JStr key) (field d "fileType") in
  client [] create = inr created ->
  py_getitem created "UploadId" = inr upload_id ->
  (forall h pn, exists url,
      client h (upload_part_url bucket_name key upload_id pn) = inr url) ->
  let n := ceil_div z PresignedUrl.part_size in
  exists urls t,
    PresignedUrl.lambda_handler client environ builtin_str ev ctx
    = (inr (multipart_response upload_id key urls), Call create (inr created) :: t)
    /\ Z.of_nat (List.length urls) = n
    /\ (forall i, (i < List.length urls)%nat ->
          part_number_of (nth i urls JNull) = inr (JInt (Z.of_nat i + 1)))
    /\ Z.of_nat (List.length t) = n
    /\ forallb is_presign t = true
    /\ PresignedUrl.part_size = 10 * MiB.
Proof.
  intros Hm Hb Hn Ht Hs Hz He Hk create Hc Hu Hok n.
  assert (Hz0 : large_file_threshold = 104857600) by reflexivity.
  assert (Hcount : PresignedUrl.count_parts (JInt z) = inr n)
    by (apply count_parts_exact; lia).
  assert (Hn0 : 0 <= n).
  { pose proof (ceil_div_bounds z ltac:(lia)) as Hcd. fold n in Hcd.
    assert (0 < PresignedUrl.part_size) by reflexivity. nia. }
  destruct (multipart_run client bucket_name key (field d "fileType") (JInt z)
              created upload_id n Hc Hu Hcount Hok)
    as (urls & t & Hrun & Hnum & Hlen & Hall).
  destruct (part_numbers_by_index urls n Hn0 Hnum) as [Hlen' Hnth].
  exists urls, t.
  rewrite (plan_multipart client environ builtin_str ev ctx d bucket_name key z)
    by (assumption || lia).
  repeat split; try assumption.
  rewrite Hlen, py_range_length. lia.
Qed.

Lemma multipart_plan_has_no_size_validation_witness :
  exists urls t,
    PresignedUrl.lambda_handler accepting sample_environ sample_str
      (post (plan_request (JInt (104 * MiB)))) sample_context
    = (inr (multipart_response (JStr "upload-1")
              "uploads/2368487920-video.mp4" urls),
       Call (create_multipart_upload (JStr "uploads-bucket")
               (JStr "uploads/2368487920-video.mp4") (JStr "video/mp4"))
            (inr (JObj [ ("UploadId", JStr "upload-1") ])) :: t)
    /\ Z.of_nat (List.length urls) = 11.
Proof.
  destruct (multipart_plan_has_no_size_validation accepting sample_environ sample_str
              (post (plan_request (JInt (104 * MiB)))) sample_context
              (plan_request (JInt (104 * MiB)))
              "uploads-bucket" "uploads/2368487920-video.mp4" (104 * MiB)
              (JObj [ ("UploadId", JStr "upload-1") ]) (JStr "upload-1")
              eq_refl eq_refl eq_refl eq_refl eq_refl)
    as (urls & t & Hrun & Hlen & _).
  - vm_compute. split; [ reflexivity | discriminate ].
  - reflexivity.
  - reflexivity.
  - reflexivity.
  - reflexivity.
  - intros h pn. eexists. reflexivity.
  - exists urls, t. split; [ exact Hrun | exact Hlen ].
Defined.

(** C1 fails at the first byte past 10 * 2^50: for
    fileSize = 10 * 2^50 + 1 and a store that accepts the calls the planner
    returns 2^30 part authorizations, one fewer than the ceiling
    2^30 + 1 of fileSize / partSize; the part numbers it does return are
    1, 2, ... in order.  Up to 10 * 2^50 bytes the count is the ceiling
    ([count_parts_exact]). *)
Theorem part_count_one_short_above_10_PiB :
  exists urls t,
    PresignedUrl.lambda_handler accepting sample_environ sample_str
      (post (plan_request (JInt (10 * 2 ^ 50 + 1)))) sample_context
    = (inr (multipart_response (JStr "upload-1")
              "uploads/2368487920-video.mp4" urls), t)
    /\ Z.of_nat (List.length urls) = 2 ^ 30
    /\ ceil_div (10 * 2 ^ 50 + 1) PresignedUrl.part_size = 2 ^ 30 + 1
    /\ (forall i, (i < List.length urls)%nat ->
          part_number_of (nth i urls JNull) = inr (JInt (Z.of_nat i + 1))).
Proof.
  set (z := 10 * 2 ^ 50 + 1).
  set (d := plan_request (JInt z)).
  assert (Hcount : PresignedUrl.count_parts (JInt z) = inr (2 ^ 30))
    by (vm_compute; reflexivity).
  assert (Hplan :
            PresignedUrl.lambda_handler accepting sample_environ sample_str
              (post d) sample_context
            = plan_outcome
                (PresignedUrl.multipart accepting "uploads-bucket"
                   "uploads/2368487920-video.mp4" (field d "fileType") (JInt z))).
  { apply (plan_multipart accepting sample_environ sample_str (post d)
             sample_context d "uploads-bucket" "uploads/2368487920-video.mp4" z);
      reflexivity. }
  destruct (multipart_run accepting "uploads-bucket" "uploads/2368487920-video.mp4"
              (field d "fileType") (JInt z)
              (JObj [ ("UploadId", JStr "upload-1") ]) (JStr "upload-1") (2 ^ 30)
              eq_refl eq_refl Hcount)
    as (urls & t & Hrun & Hnum & _).
  { intros h pn. eexists. reflexivity. }
  destruct (part_numbers_by_index urls (2 ^ 30) ltac:(lia) Hnum) as [Hlen Hnth].
  exists urls. eexists. rewrite Hplan, Hrun.
  split; [ reflexivity | ].
  split; [ exact Hlen | ].
  split; [ reflexivity | exact Hnth ].
Qed.

(** C8 fails on two invocations whose request ids differ after their first
    eight characters: planned for the same fileName, the two object keys, and
    with them the two answers, are the same. *)
Theorem same_key_for_two_requests :
  aws_request_id sample_context <> aws_request_id other_context
  /\ PresignedUrl.object_key sample_str sample_context (JStr "video.mp4")
     = inr "uploads/2368487920-video.mp4"
  /\ PresignedUrl.object_key sample_str other_context (JStr "video.mp4")
     = inr "uploads/2368487920-video.mp4"
  /\ PresignedUrl.lambda_handler accepting sample_environ sample_str
       (post (plan_request (JInt (5 * MiB)))) sample_context
     = PresignedUrl.lambda_handler accepting sample_environ sample_str
         (post (plan_request (JInt (5 * MiB)))) other_context.
Proof.
  split; [ discriminate | ]. repeat split.
Qed.

(** * Further properties of the two handlers *)

Lemma plan_failure_well_formed e : well_formed_answer (plan_failure e).
Proof. unfold plan_failure. destruct (is_client_error e); split; auto. Qed.

Section PlannerCases.
Variable client : s3.
Variable environ : list (string * string).
Variable builtin_str : json -> string.

(** Where an invocation of the planner ends: the preflight, the 400, a
    failure before any call, or one of the two modes. *)
Lemma plan_cases (ev : event) ctx :
  let out := PresignedUrl.lambda_handler client environ builtin_str ev ctx in
  out = (inr preflight, [])
  \/ out = (inr invalid_plan_request, [])
  \/ (exists e, is_client_error e = false
                /\ out = (inr (plan_failure e), [plan_failure_line e]))
  \/ (exists d bucket_name key v,
         json_loads_body (event_body ev) = inr (JObj d)
         /\ PresignedUrl.is_large (field d "fileSize") = inr v
         /\ truthy v = false
         /\ out = plan_outcome
                    (PresignedUrl.single client bucket_name key (field d "fileType")))
  \/ (exists d bucket_name key v,
         json_loads_body (event_body ev) = inr (JObj d)
         /\ PresignedUrl.is_large (field d "fileSize") = inr v
         /\ truthy v = true
         /\ out = plan_outcome
                    (PresignedUrl.multipart client bucket_name key
                       (field d "fileType") (field d "fileSize"))).
Proof.
  intro out. subst out. unfold PresignedUrl.lambda_handler.
  destruct (is_options (httpMethod ev)); [ left; reflexivity | right ].
  unfold run, try_except, PresignedUrl.try_body, bind, eval.
  destruct (json_loads_body (event_body ev)) as [e | parsed] eqn:Hb.
  { right. left. exists e.
    assert (Hc : is_client_error e = false)
      by (destruct (event_body ev); inversion Hb; reflexivity).
    split; [ exact Hc | ]. cbn [raise]. unfold plan_failure, plan_failure_line.
    rewrite Hc. reflexivity. }
  cbn [ret].
  destruct parsed as [ | | | | | | d ];
    try (right; left;
         exists (Exception "AttributeError" "object has no attribute 'get'");
         split; reflexivity).
  rewrite !py_get_field. cbn [ret].
  destruct (negb (truthy (field d "fileName")) || negb (truthy (field d "fileType")));
    [ left; reflexivity | right ].
  destruct (environ_getitem environ "UPLOAD_BUCKET_NAME") as [e | bucket_name] eqn:He.
  { left. exists e. pose proof (environ_getitem_raises _ _ _ He) as Hc.
    split; [ exact Hc | ]. cbn [raise]. unfold plan_failure, plan_failure_line.
    rewrite Hc. reflexivity. }
  cbn [ret].
  destruct (PresignedUrl.object_key builtin_str ctx (field d "fileName"))
    as [e | key] eqn:Hk.
  { left. exists e.
    assert (Hc : is_client_error e = false).
    { unfold PresignedUrl.object_key, int_base16 in Hk.
      destruct (match strip (slice_to 8 (aws_request_id ctx)) with
                | String "+" rest => unsigned16 rest
                | String "-" rest => option_map Z.opp (unsigned16 rest)
                | t => unsigned16 t
                end); inversion Hk; reflexivity. }
    split; [ exact Hc | ]. cbn [raise]. unfold plan_failure, plan_failure_line.
    rewrite Hc. reflexivity. }
  cbn [ret].
  destruct (PresignedUrl.is_large (field d "fileSize")) as [e | v] eqn:Hl.
  { left. exists e.
    assert (Hc : is_client_error e = false).
    { unfold PresignedUrl.is_large in Hl.
      destruct (truthy (field d "fileSize")); [ | discriminate ].
      destruct (field d "fileSize"); cbn in Hl; inversion Hl; reflexivity. }
    split; [ exact Hc | ]. cbn [raise]. unfold plan_failure, plan_failure_line.
    rewrite Hc. reflexivity. }
  cbn [ret]. right.
  destruct (truthy v) eqn:Hv.
  - right. exists d, bucket_name, key, v. auto.
  - left. exists d, bucket_name, key, v. auto.
Qed.
End PlannerCases.

Lemma calls_app t1 t2 : calls (t1 ++ t2) = (calls t1 ++ calls t2)%list.
Proof. apply filter_app. Qed.

Lemma calls_of_upload_parts bucket_name key upload_id t :
  Forall (is_upload_part_call bucket_name key upload_id) t -> calls t = t.
Proof.
  induction 1 as [ | ef t (pn & r & ->) _ IH ]; [ reflexivity | ].
  cbn. unfold calls in IH. rewrite IH. reflexivity.
Qed.

Lemma for_in_app {X S} (xs ys : list X) (body : X -> S -> M S) acc :
  forall w, for_in (xs ++ ys) body acc w
            = bind (for_in xs body acc) (for_in ys body) w.
Proof.
  revert acc. induction xs as [ | x xs IH ]; intros acc w.
  - reflexivity.
  - cbn [app for_in]. unfold bind.
    destruct (body x acc w) as [[e | acc'] w']; [ reflexivity | ].
    rewrite IH. reflexivity.
Qed.

Section Sessions.
Variable client : s3.

(** The loop, whatever the store answers: it stops at the first failure and
    leaves nothing but the presigning calls it made. *)
Lemma presign_loop_any bucket_name key upload_id xs :
  forall acc w,
  exists t,
    snd (for_in xs (PresignedUrl.presign_part client bucket_name key upload_id) acc w)
    = mkWorld (frame w) (trace w ++ t)
    /\ Forall (is_upload_part_call bucket_name key upload_id) t
    /\ (List.length t <= List.length xs)%nat.
Proof.
  induction xs as [ | x xs IH ]; intros acc w.
  - exists []. cbn. rewrite app_nil_r. destruct w; auto.
  - cbn [for_in]. unfold bind at 1. unfold PresignedUrl.presign_part at 1.
    unfold bind at 1, call. fold (upload_part_url bucket_name key upload_id x).
    destruct (client (trace w) (upload_part_url bucket_name key upload_id x))
      as [e | url] eqn:Hc.
    + eexists [_]. cbn [snd]. split; [ reflexivity | ].
      split; [ | cbn; lia ].
      constructor; [ | constructor ]. exists x, (inl e). reflexivity.
    + cbn [ret].
      match goal with |- context [for_in xs _ ?a ?w'] =>
        destruct (IH a w') as (t & Hw & Hall & Hlen) end.
      exists (Call (upload_part_url bucket_name key upload_id x) (inr url) :: t).
      rewrite Hw. cbn [frame trace]. rewrite <- app_assoc. split; [ reflexivity | ].
      split; [ | cbn; lia ].
      constructor; [ | exact Hall ]. exists x, (inr url). reflexivity.
Qed.

(** Every end of the multipart mode: a well-formed answer, and calls that
    are one session initiation followed by presigning calls for it. *)
Lemma multipart_outcome bucket_name key file_type file_size :
  exists r t,
    plan_outcome (PresignedUrl.multipart client bucket_name key file_type file_size)
    = (inr r, t)
    /\ well_formed_answer r
    /\ planner_calls (calls t).
Proof.
  unfold plan_outcome, run, try_except, PresignedUrl.multipart.
  unfold bind at 1. unfold call at 1. cbn [trace frame app].
  set (create := create_multipart_upload (JStr bucket_name) (JStr key) file_type).
  destruct (client [] create) as [e | created] eqn:Hc.
  { exists (plan_failure e), [Call create (inl e); plan_failure_line e].
    split; [ destruct e; reflexivity | ].
    split; [ apply plan_failure_well_formed | ].
    replace (calls [Call create (inl e); plan_failure_line e])
      with [Call create (@inl exn json e)] by (destruct e; reflexivity).
    apply (planner_session _ _ _ _ JNull []); [ constructor | congruence ]. }
  unfold bind at 1.
  destruct (py_getitem created "UploadId") as [e | upload_id] eqn:Hu.
  { exists (plan_failure e), [Call create (inr created); plan_failure_line e].
    split; [ destruct e; reflexivity | ].
    split; [ apply plan_failure_well_formed | ].
    replace (calls [Call create (inr created); plan_failure_line e])
      with [Call create (@inr exn json created)] by (destruct e; reflexivity).
    apply (planner_session _ _ _ _ JNull []); [ constructor | congruence ]. }
  cbn [eval ret]. unfold bind at 1.
  destruct (PresignedUrl.count_parts file_size) as [e | n] eqn:Hn.
  { exists (plan_failure e), [Call create (inr created); plan_failure_line e].
    split; [ destruct e; reflexivity | ].
    split; [ apply plan_failure_well_formed | ].
    replace (calls [Call create (inr created); plan_failure_line e])
      with [Call create (@inr exn json created)] by (destruct e; reflexivity).
    apply (planner_session _ _ _ _ JNull []); [ constructor | congruence ]. }
  cbn [eval ret]. unfold bind at 1.
  match goal with |- context [for_in ?xs _ ?a ?w] =>
    destruct (presign_loop_any bucket_name key upload_id xs a w)
      as (t & Hw & Hall & _);
    destruct (for_in xs (PresignedUrl.presign_part client bucket_name key upload_id) a w)
      as [[e | urls] w'] end;
    cbn [snd] in Hw; subst w'; cbn [frame trace app].
  - exists (plan_failure e),
      (Call create (inr created) :: t ++ [plan_failure_line e])%list.
    split; [ destruct e; reflexivity | ].
    split; [ apply plan_failure_well_formed | ].
    change (Call create (inr created) :: t ++ [plan_failure_line e])%list
      with ([Call create (inr created)] ++ t ++ [plan_failure_line e])%list.
    rewrite !calls_app, (calls_of_upload_parts _ _ _ _ Hall).
    replace (calls [plan_failure_line e]) with (@nil effect) by (destruct e; reflexivity).
    rewrite app_nil_r. cbn [calls filter is_call app].
    apply (planner_session _ _ _ _ upload_id t); [ exact Hall | ].
    intros _. exists created. auto.
  - eexists. exists (Call create (inr created) :: t).
    split; [ reflexivity | ].
    split; [ split; auto | ].
    change (Call create (inr created) :: t)
      with ([Call create (inr created)] ++ t)%list.
    rewrite calls_app, (calls_of_upload_parts _ _ _ _ Hall).
    apply (planner_session _ _ _ _ upload_id t); [ exact Hall | ].
    intros _. exists created. auto.
Qed.
End Sessions.

Lemma planner_outcome
  (client : s3) (environ : list (string * string)) (builtin_str : json -> string)
  (ev : event) (ctx : context) :
  exists r t,
    PresignedUrl.lambda_handler client environ builtin_str ev ctx = (inr r, t)
    /\ well_formed_answer r
    /\ planner_calls (calls t).
Proof.
  destruct (plan_cases client environ builtin_str ev ctx)
    as [H | [H | [(e & Hc & H)
                  | [(d & b & k & v & _ & _ & _ & H) | (d & b & k & v & _ & _ & _ & H)]]]];
    rewrite H.
  - exists preflight, []. repeat split; auto. constructor.
  - exists invalid_plan_request, []. repeat split; auto. constructor.
  - exists (plan_failure e), [plan_failure_line e].
    split; [ reflexivity | ]. split; [ apply plan_failure_well_formed | ].
    unfold plan_failure_line. rewrite Hc. constructor.
  - rewrite single_run.
    set (ft := field d "fileType").
    destruct (client [] (put_object_url b k ft)) as [e | url].
    + exists (plan_failure e), [Call (put_object_url b k ft) (inl e); plan_failure_line e].
      split; [ reflexivity | ]. split; [ apply plan_failure_well_formed | ].
      replace (calls [Call (put_object_url b k ft) (inl e); plan_failure_line e])
        with [Call (put_object_url b k ft) (@inl exn json e)]
        by (destruct e; reflexivity).
      constructor.
    + eexists. eexists. split; [ reflexivity | ]. split; [ split; auto | ].
      constructor.
  - apply multipart_outcome.
Qed.

Section FinalizerCases.
Variable client : s3.
Variable environ : list (string * string).

Lemma format_part_malformed p acc w :
  has_fields p = false ->
  exists e, CompleteMultipart.format_part p acc w = (inl e, w)
            /\ is_client_error e = false.
Proof.
  intros Hp. unfold CompleteMultipart.format_part, bind, eval, py_getitem.
  destruct p as [ | | | | | | items ];
    try (eexists; split; reflexivity).
  cbn [has_fields] in Hp.
  destruct (lookup "ETag" items); [ | eexists; split; reflexivity ].
  destruct (lookup "PartNumber" items); [ discriminate | ].
  eexists; split; reflexivity.
Qed.

Lemma format_loop_malformed parts :
  forallb has_fields parts = false ->
  forall acc w,
  exists e, for_in parts CompleteMultipart.format_part acc w = (inl e, w)
            /\ is_client_error e = false.
Proof.
  induction parts as [ | p parts IH ]; intros Hall acc w; [ discriminate | ].
  cbn [forallb] in Hall. cbn [for_in]. unfold bind.
  destruct (has_fields p) eqn:Hp.
  - cbn [andb] in Hall.
    destruct (CompleteMultipart.format_part p acc w) as [[e | acc'] w'] eqn:E.
    + destruct (format_part_raises _ _ _ _ _ E) as [Hc ->]. exists e. auto.
    + assert (w' = w) as ->.
      { revert E. unfold CompleteMultipart.format_part, bind, eval.
        destruct (py_getitem p "ETag"); cbn [ret raise]; [ discriminate | ].
        destruct (py_getitem p "PartNumber"); cbn [ret raise]; [ discriminate | ].
        intros E; inversion E; reflexivity. }
      apply IH. exact Hall.
  - destruct (format_part_malformed p acc w Hp) as (e & He & Hc).
    rewrite He. exists e. auto.
Qed.

(** Where an invocation of the finalizer ends before it reaches the store. *)
Lemma finalize_cases (ev : event) ctx :
  let out := CompleteMultipart.lambda_handler client environ ev ctx in
  out = (inr preflight, [])
  \/ out = (inr invalid_finalize_request, [])
  \/ (exists e, is_client_error e = false
                /\ out = (inr generic_failure, [failure_line e]))
  \/ (exists d l bucket_name,
         is_options (httpMethod ev) = false
         /\ json_loads_body (event_body ev) = inr (JObj d)
         /\ truthy (field d "uploadId") = true
         /\ truthy (field d "key") = true
         /\ field d "parts" = JList l
         /\ l <> []
         /\ forallb has_fields l = true
         /\ environ_getitem environ "UPLOAD_BUCKET_NAME" = inr bucket_name).
Proof.
  intro out. subst out.
  destruct (is_options (httpMethod ev)) eqn:Hm;
    [ left; unfold CompleteMultipart.lambda_handler; rewrite Hm; reflexivity | right ].
  destruct (json_loads_body (event_body ev)) as [e | parsed] eqn:Hb.
  { right. left. exists e.
    assert (Hc : is_client_error e = false)
      by (destruct (event_body ev); inversion Hb; reflexivity).
    split; [ exact Hc | ].
    unfold CompleteMultipart.lambda_handler. rewrite Hm.
    unfold run, try_except, CompleteMultipart.try_body, bind, eval.
    rewrite Hb. cbn [raise]. rewrite Hc. reflexivity. }
  destruct parsed as [ | | | | | | d ];
    try (right; left;
         exists (Exception "AttributeError" "object has no attribute 'get'");
         split; [ reflexivity | ];
         unfold CompleteMultipart.lambda_handler; rewrite Hm;
         unfold run, try_except, CompleteMultipart.try_body, bind, eval;
         rewrite Hb; reflexivity).
  destruct (truthy (field d "uploadId")) eqn:Hu;
    [ | left; apply (finalize_invalid client environ ev ctx d); auto ].
  destruct (truthy (field d "key")) eqn:Hk;
    [ | left; apply (finalize_invalid client environ ev ctx d); auto ].
  destruct (truthy (field d "parts")) eqn:Ht;
    [ | left; apply (finalize_invalid client environ ev ctx d); auto ].
  destruct (isinstance_list (field d "parts")) eqn:Hi;
    [ | left; apply (finalize_invalid client environ ev ctx d); auto 6 ].
  destruct (field d "parts") as [ | | | | | l | ] eqn:Hp; try discriminate Hi.
  assert (Hne : l <> []) by (intros ->; discriminate Ht).
  right.
  destruct (environ_getitem environ "UPLOAD_BUCKET_NAME") as [e | bucket_name] eqn:He;
    [ left | ].
  { exists e. pose proof (environ_getitem_raises _ _ _ He) as Hc.
    split; [ exact Hc | ].
    unfold CompleteMultipart.lambda_handler. rewrite Hm.
    unfold run, try_except, CompleteMultipart.try_body.
    unfold bind at 1. rewrite Hb. cbn [eval ret].
    unfold bind at 1. unfold bind at 1. rewrite py_get_field. cbn [eval ret assign].
    unfold bind at 1. unfold bind at 1. rewrite py_get_field.
    cbn [eval ret assign frame trace].
    unfold bind at 1. rewrite py_get_field. cbn [eval ret].
    rewrite Hu, Hk, Hp, Ht. cbn [negb orb isinstance_list].
    unfold bind at 1. unfold bind at 1. rewrite He. cbn [eval raise].
    rewrite Hc. reflexivity. }
  destruct (forallb has_fields l) eqn:Hall; [ right | left ].
  { exists d, l, bucket_name. repeat split; auto. }
  unfold CompleteMultipart.lambda_handler. rewrite Hm.
  unfold run, try_except, CompleteMultipart.try_body.
  unfold bind at 1. rewrite Hb. cbn [eval ret].
  unfold bind at 1. unfold bind at 1. rewrite py_get_field. cbn [eval ret assign].
  unfold bind at 1. unfold bind at 1. rewrite py_get_field.
  cbn [eval ret assign frame trace].
  unfold bind at 1. rewrite py_get_field. cbn [eval ret].
  rewrite Hu, Hk, Hp, Ht. cbn [negb orb isinstance_list].
  unfold bind at 1. unfold bind at 1. rewrite He.
  cbn [eval ret assign frame trace]. unfold bind at 1. cbn [py_iter eval ret].
  unfold bind at 1.
  match goal with |- context [for_in l _ ?a ?w] =>
    destruct (format_loop_malformed l Hall a w) as (e & Hrun & Hc) end.
  rewrite Hrun. exists e. split; [ exact Hc | ]. rewrite Hc. reflexivity.
Qed.
End FinalizerCases.

Lemma finalizer_outcome client environ (ev : event) ctx :
  exists r t,
    CompleteMultipart.lambda_handler client environ ev ctx = (inr r, t)
    /\ well_formed_answer r
    /\ finalizer_calls (calls t).
Proof.
  destruct (finalize_cases client environ ev ctx)
    as [H | [H | [(e & Hc & H) | (d & l & b & Hm & Hb & Hu & Hk & Hp & Hne & Hall & He)]]].
  - rewrite H. exists preflight, []. repeat split; auto. constructor.
  - rewrite H. exists invalid_finalize_request, []. repeat split; auto. constructor.
  - rewrite H. exists generic_failure, [failure_line e]. repeat split; auto. constructor.
  - rewrite (finalize_reaches_completion client environ ev ctx d l b
               Hm Hb Hu Hk Hp Hne Hall He).
    cbv zeta.
    destruct (client [] (completion b (field d "key") (field d "uploadId") l))
      as [[msg | kind msg] | reported].
    + eexists. eexists. split; [ reflexivity | ]. split; [ split; auto | ].
      match goal with |- context [abort_line ?u ?k ?r] =>
        replace (calls ([Call (completion b k u l) (inl (ClientError msg));
                         completion_failed_line (ClientError msg)]
                        ++ [Call (abort b k u) r; abort_line u k r]))
          with [Call (completion b k u l) (inl (ClientError msg));
                Call (abort b k u) r]
          by (destruct r; reflexivity) end.
      apply finalizer_abort.
    + eexists. eexists. split; [ reflexivity | ]. split; [ split; auto | ].
      apply finalizer_completion. reflexivity.
    + destruct reported; eexists; eexists;
        (split; [ reflexivity | ]); (split; [ split; auto | ]);
        apply finalizer_completion; reflexivity.
Qed.

(** Every invocation of the finalizer with an event that is a dict is
    answered: no exception escapes it, the status is 200, 400 or 500 and the
    CORS headers are set.  An invocation with a payload that is not a dict is
    not answered: the [AttributeError] of [event.get('httpMethod')], which
    precedes the [try], escapes the handler, before anything is printed and
    before any store call. *)
Theorem finalizer_answer_is_well_formed
  (client : s3) (environ : list (string * string)) (p : payload) (ctx : context) :
  match p with
  | dict_event _ =>
      exists r,
        fst (CompleteMultipart.lambda_handler client environ p ctx) = inr r
        /\ well_formed_answer r
  | not_a_dict =>
      CompleteMultipart.lambda_handler client environ p ctx = (inl no_get, [])
  end.
Proof.
  destruct p as [ev | ]; [ | reflexivity ].
  destruct (finalizer_outcome client environ ev ctx) as (r & t & H & Hr & _).
  exists r. rewrite H. auto.
Qed.

(** The finalizer calls the store at most twice: nothing, or one completion,
    or a completion rejected with a [ClientError] followed by one abort of
    the same upload; it never initiates a session and never presigns. *)
Theorem finalizer_call_shape
  (client : s3) (environ : list (string * string)) (ev : event) (ctx : context) :
  finalizer_calls (calls (snd (CompleteMultipart.lambda_handler client environ ev ctx))).
Proof.
  destruct (finalizer_outcome client environ ev ctx) as (r & t & H & _ & Hc).
  rewrite H. exact Hc.
Qed.

(** When the completion fails with anything but a [ClientError] (the
    client could not reach the store, say), the answer is the generic
    failure and the upload is not aborted: the completion is the only
    call. *)
Theorem completion_failure_outside_store_is_not_aborted
  (client : s3) (environ : list (string * string))
  (ev : event) (ctx : context) (d : list (string * json)) (l : list json)
  (bucket_name kind msg : string) :
  is_options (httpMethod ev) = false ->
  json_loads_body (event_body ev) = inr (JObj d) ->
  truthy (field d "uploadId") = true ->
  truthy (field d "key") = true ->
  field d "parts" = JList l ->
  l <> [] ->
  forallb has_fields l = true ->
  environ_getitem environ "UPLOAD_BUCKET_NAME" = inr bucket_name ->
  let c := completion bucket_name (field d "key") (field d "uploadId") l in
  client [] c = inl (Exception kind msg) ->
  CompleteMultipart.lambda_handler client environ ev ctx
  = (inr generic_failure,
     [ Call c (inl (Exception kind msg)); failure_line (Exception kind msg) ]).
Proof.
  intros Hm Hb Hu Hk Hp Hne Hall He c Hc.
  rewrite (finalize_reaches_completion client environ ev ctx d l bucket_name
             Hm Hb Hu Hk Hp Hne Hall He).
  cbv zeta. fold c. rewrite Hc. reflexivity.
Qed.

Lemma completion_failure_outside_store_is_not_aborted_witness :
  CompleteMultipart.lambda_handler unreachable sample_environ
    (post (finalize_request (JList sample_manifest))) sample_context
  = (inr generic_failure,
     [ Call (completion "uploads-bucket" (JStr "uploads/1-video.mp4")
               (JStr "upload-1") sample_manifest)
            (inl (Exception "EndpointConnectionError" "could not connect"));
       failure_line (Exception "EndpointConnectionError" "could not connect") ]).
Proof.
  apply (completion_failure_outside_store_is_not_aborted unreachable sample_environ
           (post (finalize_request (JList sample_manifest))) sample_context
           (finalize_request (JList sample_manifest)) sample_manifest
           "uploads-bucket" "EndpointConnectionError" "could not connect");
    try reflexivity.
  discriminate.
Defined.

(** A manifest holding any entry that is not a dict with both an [ETag] and
    a [PartNumber] (a string, a number, a list, a dict short of a field) is
    answered with the generic failure before any store call, however many
    good entries come before it. *)
Theorem malformed_manifest_entry_reaches_no_store
  (client : s3) (environ : list (string * string))
  (ev : event) (ctx : context) (d : list (string * json)) (l : list json) :
  is_options (httpMethod ev) = false ->
  json_loads_body (event_body ev) = inr (JObj d) ->
  truthy (field d "uploadId") = true ->
  truthy (field d "key") = true ->
  field d "parts" = JList l ->
  forallb has_fields l = false ->
  exists e,
    CompleteMultipart.lambda_handler client environ ev ctx
    = (inr generic_failure, [ failure_line e ])
    /\ is_client_error e = false.
Proof.
  intros Hm Hb Hu Hk Hp Hall.
  assert (Ht : truthy (JList l) = true) by (destruct l; [ discriminate | reflexivity ]).
  unfold CompleteMultipart.lambda_handler. rewrite Hm.
  unfold run, try_except, CompleteMultipart.try_body.
  unfold bind at 1. rewrite Hb. cbn [eval ret].
  unfold bind at 1. unfold bind at 1. rewrite py_get_field. cbn [eval ret assign].
  unfold bind at 1. unfold bind at 1. rewrite py_get_field.
  cbn [eval ret assign frame trace].
  unfold bind at 1. rewrite py_get_field. cbn [eval ret].
  rewrite Hu, Hk, Hp, Ht. cbn [negb orb isinstance_list].
  unfold bind at 1. unfold bind at 1.
  destruct (environ_getitem environ "UPLOAD_BUCKET_NAME") as [e | b] eqn:He.
  - exists e. pose proof (environ_getitem_raises _ _ _ He) as Hc.
    cbn [eval raise]. split; [ rewrite Hc; reflexivity | exact Hc ].
  - cbn [eval ret assign frame trace]. unfold bind at 1. cbn [py_iter eval ret].
    unfold bind at 1.
    match goal with |- context [for_in l _ ?a ?w] =>
      destruct (format_loop_malformed l Hall a w) as (e & Hrun & Hc) end.
    rewrite Hrun. exists e. split; [ rewrite Hc; reflexivity | exact Hc ].
Qed.

Lemma malformed_manifest_entry_reaches_no_store_witness :
  exists e,
    CompleteMultipart.lambda_handler accepting sample_environ
      (post (finalize_request
               (JList [ JObj [ ("ETag", JStr "etag-1"); ("PartNumber", JInt 1) ];
                        JStr "etag-2" ])))
      sample_context
    = (inr generic_failure, [ failure_line e ]).
Proof.
  destruct (malformed_manifest_entry_reaches_no_store accepting sample_environ
              (post (finalize_request
                       (JList [ JObj [ ("ETag", JStr "etag-1"); ("PartNumber", JInt 1) ];
                                JStr "etag-2" ])))
              sample_context
              (finalize_request
                 (JList [ JObj [ ("ETag", JStr "etag-1"); ("PartNumber", JInt 1) ];
                          JStr "etag-2" ]))
              [ JObj [ ("ETag", JStr "etag-1"); ("PartNumber", JInt 1) ];
                JStr "etag-2" ]
              eq_refl eq_refl eq_refl eq_refl eq_refl eq_refl) as (e & Hrun & _).
  exists e. exact Hrun.
Defined.

(** The manifest goes to the store as it came: the completion, the first
    thing the finalizer does for a well-formed request, carries one part per
    entry, in the order of the request, each made of the entry's [ETag] and
    [PartNumber] and of nothing else; the parts are neither sorted nor
    deduplicated. *)
Theorem manifest_is_passed_in_order
  (client : s3) (environ : list (string * string))
  (ev : event) (ctx : context) (d : list (string * json)) (l : list json)
  (bucket_name : string) :
  is_options (httpMethod ev) = false ->
  json_loads_body (event_body ev) = inr (JObj d) ->
  truthy (field d "uploadId") = true ->
  truthy (field d "key") = true ->
  field d "parts" = JList l ->
  l <> [] ->
  forallb has_fields l = true ->
  environ_getitem environ "UPLOAD_BUCKET_NAME" = inr bucket_name ->
  exists parts r t,
    snd (CompleteMultipart.lambda_handler client environ ev ctx)
    = Call (complete_multipart_upload (JStr bucket_name) (field d "key")
              (field d "uploadId") (JObj [ ("Parts", JList parts) ])) r :: t
    /\ List.length parts = List.length l
    /\ forall i, (i < List.length l)%nat ->
         exists etag part_number,
           py_getitem (nth i l JNull) "ETag" = inr etag
           /\ py_getitem (nth i l JNull) "PartNumber" = inr part_number
           /\ nth i parts JNull
              = JObj [ ("ETag", etag); ("PartNumber", part_number) ].
Proof.
  intros Hm Hb Hu Hk Hp Hne Hall He.
  exists (map reshape l).
  assert (Hshape :
            forall i, (i < List.length l)%nat ->
              exists etag part_number,
                py_getitem (nth i l JNull) "ETag" = inr etag
                /\ py_getitem (nth i l JNull) "PartNumber" = inr part_number
                /\ nth i (map reshape l) JNull
                   = JObj [ ("ETag", etag); ("PartNumber", part_number) ]).
  { intros i Hi.
    assert (Hf : has_fields (nth i l JNull) = true).
    { rewrite forallb_forall in Hall. apply Hall. apply nth_In. exact Hi. }
    change JNull with (reshape JNull) at 3. rewrite map_nth.
    destruct (nth i l JNull) as [ | | | | | | items ]; try discriminate Hf.
    cbn [has_fields] in Hf. unfold py_getitem, reshape, field.
    destruct (lookup "ETag" items) as [etag | ]; [ | discriminate Hf ].
    destruct (lookup "PartNumber" items) as [pn | ]; [ | discriminate Hf ].
    exists etag, pn. auto. }
  rewrite (finalize_reaches_completion client environ ev ctx d l bucket_name
             Hm Hb Hu Hk Hp Hne Hall He).
  cbv zeta. unfold completion.
  match goal with |- context [client [] ?c] => destruct (client [] c) as [[msg | kind msg] | reported] end.
  - eexists. eexists. split; [ reflexivity | ]. split; [ apply length_map | exact Hshape ].
  - eexists. eexists. split; [ reflexivity | ]. split; [ apply length_map | exact Hshape ].
  - destruct reported; eexists; eexists;
      (split; [ reflexivity | ]); (split; [ apply length_map | exact Hshape ]).
Qed.

Lemma manifest_is_passed_in_order_witness :
  exists r t,
    snd (CompleteMultipart.lambda_handler accepting sample_environ
           (post (finalize_request
                    (JList [ JObj [ ("PartNumber", JInt 2); ("ETag", JStr "etag-2");
                                    ("Size", JInt 5) ];
                             JObj [ ("ETag", JStr "etag-1"); ("PartNumber", JInt 1) ] ])))
           sample_context)
    = Call (complete_multipart_upload (JStr "uploads-bucket")
              (JStr "uploads/1-video.mp4") (JStr "upload-1")
              (JObj [ ("Parts",
                       JList [ JObj [ ("ETag", JStr "etag-2"); ("PartNumber", JInt 2) ];
                               JObj [ ("ETag", JStr "etag-1"); ("PartNumber", JInt 1) ] ]) ]))
           r :: t.
Proof.
  destruct (manifest_is_passed_in_order accepting sample_environ
              (post (finalize_request
                       (JList [ JObj [ ("PartNumber", JInt 2); ("ETag", JStr "etag-2");
                                       ("Size", JInt 5) ];
                                JObj [ ("ETag", JStr "etag-1"); ("PartNumber", JInt 1) ] ])))
              sample_context
              (finalize_request
                 (JList [ JObj [ ("PartNumber", JInt 2); ("ETag", JStr "etag-2");
                                 ("Size", JInt 5) ];
                          JObj [ ("ETag", JStr "etag-1"); ("PartNumber", JInt 1) ] ]))
              [ JObj [ ("PartNumber", JInt 2); ("ETag", JStr "etag-2"); ("Size", JInt 5) ];
                JObj [ ("ETag", JStr "etag-1"); ("PartNumber", JInt 1) ] ]
              "uploads-bucket" eq_refl eq_refl eq_refl eq_refl eq_refl)
    as (parts & r & t & Hrun & _).
  - discriminate.
  - reflexivity.
  - reflexivity.
  - exists r, t. rewrite Hrun. vm_compute in Hrun. inversion Hrun. reflexivity.
Defined.

Lemma environ_getitem_missing environ name e :
  environ_getitem environ name = inl e -> e = Exception "KeyError" name.
Proof.
  induction environ as [ | [k v] rest IH ]; cbn [environ_getitem].
  - intros H; inversion H; reflexivity.
  - destruct ((name =? k)%string); [ discriminate | exact IH ].
Qed.

Lemma json_loads_unreadable b :
  unreadable b ->
  exists e, is_client_error e = false
            /\ match json_loads_body b with
               | inl e' => e' = e
               | inr parsed => forall k v, py_get parsed k v = inl e
               end.
Proof.
  intros [-> | [(msg & ->) | (parsed & -> & Hp)]]; cbn [json_loads_body].
  - exists (Exception "TypeError" "the JSON object must be str, bytes or bytearray").
    split; reflexivity.
  - exists (Exception "JSONDecodeError" msg). split; reflexivity.
  - exists (Exception "AttributeError" "object has no attribute 'get'").
    split; [ reflexivity | ].
    destruct parsed; try reflexivity. exfalso. eapply Hp. reflexivity.
Qed.

(** Every invocation of the planner with an event that is a dict is
    answered: no exception escapes it, the status is 200, 400 or 500 and the
    CORS headers are set.  An invocation with a payload that is not a dict is
    not answered: the [AttributeError] of [event.get('httpMethod')], which
    precedes the [try], escapes the handler, before anything is printed and
    before any store call. *)
Theorem planner_answer_is_well_formed
  (client : s3) (environ : list (string * string)) (builtin_str : json -> string)
  (p : payload) (ctx : context) :
  match p with
  | dict_event _ =>
      exists r,
        fst (PresignedUrl.lambda_handler client environ builtin_str p ctx) = inr r
        /\ well_formed_answer r
  | not_a_dict =>
      PresignedUrl.lambda_handler client environ builtin_str p ctx = (inl no_get, [])
  end.
Proof.
  destruct p as [ev | ]; [ | reflexivity ].
  destruct (planner_outcome client environ builtin_str ev ctx) as (r & t & H & Hr & _).
  exists r. rewrite H. auto.
Qed.

(** The planner's calls of the store are nothing, or one presigned put, or
    one session initiation followed by presigning calls for parts of that
    session's key and upload id, made only when the initiation returned that
    upload id; it never completes and never aborts an upload, also when it
    fails after the initiation. *)
Theorem planner_call_shape
  (client : s3) (environ : list (string * string)) (builtin_str : json -> string)
  (ev : event) (ctx : context) :
  planner_calls
    (calls (snd (PresignedUrl.lambda_handler client environ builtin_str ev ctx))).
Proof.
  destruct (planner_outcome client environ builtin_str ev ctx) as (r & t & H & _ & Hc).
  rewrite H. exact Hc.
Qed.

(** A body that is [None], is not JSON, or is JSON but not an object makes
    both handlers answer with their generic 500 - not with the 400 of a
    request that lacks a field - after one printed line and no store
    call. *)
Theorem unreadable_body_is_a_server_error
  (client : s3) (environ : list (string * string)) (builtin_str : json -> string)
  (ev : event) (ctx : context) :
  is_options (httpMethod ev) = false ->
  unreadable (event_body ev) ->
  exists e,
    PresignedUrl.lambda_handler client environ builtin_str ev ctx
    = (inr plan_generic_failure, [ plan_generic_line e ])
    /\ CompleteMultipart.lambda_handler client environ ev ctx
       = (inr generic_failure, [ failure_line e ]).
Proof.
  intros Hm Hu.
  destruct (json_loads_unreadable _ Hu) as (e & Hc & He). exists e.
  unfold PresignedUrl.lambda_handler, CompleteMultipart.lambda_handler. rewrite Hm.
  unfold run, try_except, PresignedUrl.try_body, CompleteMultipart.try_body.
  unfold bind, eval.
  destruct (json_loads_body (event_body ev)) as [e' | parsed].
  - subst e'. cbn [raise]. rewrite Hc. split; reflexivity.
  - cbn [ret]. rewrite !He. cbn [raise]. rewrite Hc. split; reflexivity.
Qed.

Lemma unreadable_body_is_a_server_error_witness :
  exists e,
    PresignedUrl.lambda_handler accepting sample_environ sample_str
      (mkEvent (JStr "POST") body_not_text) sample_context
    = (inr plan_generic_failure, [ plan_generic_line e ])
    /\ CompleteMultipart.lambda_handler accepting sample_environ
         (mkEvent (JStr "POST") body_not_text) sample_context
       = (inr generic_failure, [ failure_line e ]).
Proof.
  apply (unreadable_body_is_a_server_error accepting sample_environ sample_str
           (mkEvent (JStr "POST") body_not_text) sample_context).
  - reflexivity.
  - left. reflexivity.
Defined.

(** When [UPLOAD_BUCKET_NAME] is not in the environment, a request that
    passes the validation of either handler is answered with the generic 500
    after the [KeyError] is printed, and no store call is made. *)
Theorem missing_bucket_name_is_a_server_error
  (client : s3) (environ : list (string * string)) (builtin_str : json -> string)
  (ev : event) (ctx : context) (d : list (string * json)) (e : exn) :
  is_options (httpMethod ev) = false ->
  json_loads_body (event_body ev) = inr (JObj d) ->
  environ_getitem environ "UPLOAD_BUCKET_NAME" = inl e ->
  e = Exception "KeyError" "UPLOAD_BUCKET_NAME"
  /\ (truthy (field d "fileName") = true ->
      truthy (field d "fileType") = true ->
      PresignedUrl.lambda_handler client environ builtin_str ev ctx
      = (inr plan_generic_failure, [ plan_generic_line e ]))
  /\ (truthy (field d "uploadId") = true ->
      truthy (field d "key") = true ->
      truthy (field d "parts") = true ->
      isinstance_list (field d "parts") = true ->
      CompleteMultipart.lambda_handler client environ ev ctx
      = (inr generic_failure, [ failure_line e ])).
Proof.
  intros Hm Hb He.
  pose proof (environ_getitem_missing _ _ _ He) as Hk.
  split; [ exact Hk | ]. split.
  - intros Hn Ht.
    unfold PresignedUrl.lambda_handler. rewrite Hm.
    unfold run, try_except, PresignedUrl.try_body, bind, eval.
    rewrite Hb. cbn [ret]. rewrite !py_get_field. cbn [ret].
    rewrite Hn, Ht. cbn [negb orb]. rewrite He. cbn [raise]. rewrite Hk.
    reflexivity.
  - intros Hu Hkey Hp Hi.
    unfold CompleteMultipart.lambda_handler. rewrite Hm.
    unfold run, try_except, CompleteMultipart.try_body.
    unfold bind at 1. rewrite Hb. cbn [eval ret].
    unfold bind at 1. unfold bind at 1. rewrite py_get_field. cbn [eval ret assign].
    unfold bind at 1. unfold bind at 1. rewrite py_get_field.
    cbn [eval ret assign frame trace].
    unfold bind at 1. rewrite py_get_field. cbn [eval ret].
    rewrite Hu, Hkey, Hp, Hi. cbn [negb orb].
    unfold bind at 1. unfold bind at 1. rewrite He. cbn [eval raise]. rewrite Hk.
    reflexivity.
Qed.

Lemma missing_bucket_name_is_a_server_error_witness :
  PresignedUrl.lambda_handler accepting [ ("AWS_REGION", "eu-west-1") ] sample_str
    (post (plan_request (JInt (5 * MiB)))) sample_context
  = (inr plan_generic_failure,
     [ plan_generic_line (Exception "KeyError" "UPLOAD_BUCKET_NAME") ]).
Proof.
  apply (missing_bucket_name_is_a_server_error accepting
           [ ("AWS_REGION", "eu-west-1") ] sample_str
           (post (plan_request (JInt (5 * MiB)))) sample_context
           (plan_request (JInt (5 * MiB)))
           (Exception "KeyError" "UPLOAD_BUCKET_NAME")
           eq_refl eq_refl eq_refl); reflexivity.
Defined.

Lemma is_large_truthy fs v :
  PresignedUrl.is_large fs = inr v -> truthy v = true ->
  (exists z, fs = JInt z /\ large_file_threshold < z)
  \/ (exists x, fs = JFloat x /\ float_gt_Z x large_file_threshold = true).
Proof.
  unfold PresignedUrl.is_large.
  destruct (truthy fs) eqn:Hfs.
  - destruct fs as [ | b | z | x | s | l | items ]; cbn [py_gt]; try discriminate;
      intros H; inversion H; subst v; cbn [truthy]; intros Hv.
    + destruct b; discriminate Hv.
    + left. exists z. split; [ reflexivity | ].
      unfold large_file_threshold. rewrite Z.gtb_ltb in Hv. apply Z.ltb_lt. exact Hv.
    + right. exists x. auto.
  - intros H; inversion H; subst v. congruence.
Qed.

Lemma is_large_unordered fs :
  truthy fs = true -> unordered fs = true ->
  PresignedUrl.is_large fs
  = inl (Exception "TypeError" "'>' not supported between these instances").
Proof.
  unfold PresignedUrl.is_large. intros -> Hu.
  destruct fs; try discriminate Hu; reflexivity.
Qed.

Lemma map_seq_from lo s m :
  map (fun i => lo + Z.of_nat i) (seq s m)
  = map (fun i => lo + Z.of_nat s + Z.of_nat i) (seq 0 m).
Proof.
  revert lo s. induction m as [ | m IH ]; intros lo s; [ reflexivity | ].
  cbn [seq map]. f_equal; [ lia | ].
  rewrite (IH lo (S s)), (IH (lo + Z.of_nat s) 1%nat). apply map_ext. intros i. lia.
Qed.

Lemma py_range_split lo k hi :
  lo <= k < hi ->
  py_range lo hi = (py_range lo k ++ k :: py_range (k + 1) hi)%list.
Proof.
  intros Hk. unfold py_range.
  replace (Z.to_nat (hi - lo))
    with (Z.to_nat (k - lo) + S (Z.to_nat (hi - (k + 1))))%nat by lia.
  rewrite seq_app, map_app. f_equal. cbn [seq map plus]. f_equal; [ lia | ].
  rewrite map_seq_from. apply map_ext. intros i. lia.
Qed.

Section Failures.
Variable client : s3.
Variable environ : list (string * string).
Variable builtin_str : json -> string.

(** A valid request sent to the multipart mode, whatever its size is. *)
Lemma plan_session (ev : event) ctx d bucket_name key v :
  is_options (httpMethod ev) = false ->
  json_loads_body (event_body ev) = inr (JObj d) ->
  truthy (field d "fileName") = true ->
  truthy (field d "fileType") = true ->
  environ_getitem environ "UPLOAD_BUCKET_NAME" = inr bucket_name ->
  PresignedUrl.object_key builtin_str ctx (field d "fileName") = inr key ->
  PresignedUrl.is_large (field d "fileSize") = inr v ->
  truthy v = true ->
  PresignedUrl.lambda_handler client environ builtin_str ev ctx
  = plan_outcome (PresignedUrl.multipart client bucket_name key
                    (field d "fileType") (field d "fileSize")).
Proof.
  intros Hm Hb Hn Ht He Hk Hl Hv.
  rewrite (plan_valid client environ builtin_str ev ctx d bucket_name key)
    by assumption.
  unfold plan_outcome, run, try_except, bind. rewrite Hl. cbn [eval ret].
  rewrite Hv. reflexivity.
Qed.

(** The loop while the store signs: one URL per number, in order. *)
Lemma presign_loop_on bucket_name key upload_id xs :
  (forall h pn, In pn xs ->
     exists url, client h (upload_part_url bucket_name key upload_id pn) = inr url) ->
  forall acc w,
  exists urls t,
    for_in xs (PresignedUrl.presign_part client bucket_name key upload_id) acc w
    = (inr (acc ++ urls)%list, mkWorld (frame w) (trace w ++ t)%list)
    /\ List.length t = List.length xs
    /\ Forall (is_upload_part_call bucket_name key upload_id) t
    /\ Forall returned t.
Proof.
  induction xs as [ | x xs IH ]; intros Hok acc w.
  - exists [], []. cbn. rewrite !app_nil_r. destruct w; auto.
  - destruct (Hok (trace w) x (or_introl eq_refl)) as [url Hurl].
    cbn [for_in]. unfold bind at 1. unfold PresignedUrl.presign_part at 1.
    unfold bind at 1, call. fold (upload_part_url bucket_name key upload_id x).
    rewrite Hurl. cbn [ret].
    match goal with |- context [for_in xs _ ?a ?w'] =>
      destruct (IH (fun h pn Hin => Hok h pn (or_intror Hin)) a w')
        as (urls & t & Hrun & Hlen & Hall & Hret) end.
    rewrite Hrun. cbn [frame trace].
    eexists (_ :: urls), (_ :: t). repeat split.
    + rewrite <- !app_assoc. reflexivity.
    + cbn [List.length]. rewrite Hlen. reflexivity.
    + constructor; [ | exact Hall ]. exists x, (inr url). reflexivity.
    + constructor; [ | exact Hret ]. eexists. eexists. reflexivity.
Qed.
End Failures.

(** When the first eight characters of the request id are ASCII and are not
    a base-16 literal as [int(s, 16)] reads one (white space at the ends, a
    sign, [0x], single underscores between digits), a valid request is
    answered with the generic 500 after the [ValueError] is printed: no key
    is derived and no store call is made. *)
Theorem request_id_that_is_not_hex_fails
  (client : s3) (environ : list (string * string)) (builtin_str : json -> string)
  (ev : event) (ctx : context) (d : list (string * json))
  (bucket_name : string) (e : exn) :
  is_options (httpMethod ev) = false ->
  json_loads_body (event_body ev) = inr (JObj d) ->
  truthy (field d "fileName") = true ->
  truthy (field d "fileType") = true ->
  environ_getitem environ "UPLOAD_BUCKET_NAME" = inr bucket_name ->
  isascii (slice_to 8 (aws_request_id ctx)) = true ->
  int_base16 (slice_to 8 (aws_request_id ctx)) = inl e ->
  e = Exception "ValueError" "invalid literal for int() with base 16"
  /\ PresignedUrl.lambda_handler client environ builtin_str ev ctx
     = (inr plan_generic_failure, [ plan_generic_line e ]).
Proof.
  intros Hm Hb Hn Ht He _ Hi.
  assert (Hv : e = Exception "ValueError" "invalid literal for int() with base 16").
  { unfold int_base16 in Hi.
    destruct (match strip (slice_to 8 (aws_request_id ctx)) with
              | String "+" rest => unsigned16 rest
              | String "-" rest => option_map Z.opp (unsigned16 rest)
              | t => unsigned16 t
              end); inversion Hi; reflexivity. }
  split; [ exact Hv | ].
  unfold PresignedUrl.lambda_handler. rewrite Hm.
  unfold run, try_except, PresignedUrl.try_body, bind, eval.
  rewrite Hb. cbn [ret]. rewrite !py_get_field. cbn [ret].
  rewrite Hn, Ht. cbn [negb orb]. rewrite He. cbn [ret].
  unfold PresignedUrl.object_key. rewrite Hi. cbn [raise]. rewrite Hv. reflexivity.
Qed.

Lemma request_id_that_is_not_hex_fails_witness :
  PresignedUrl.lambda_handler accepting sample_environ sample_str
    (post (plan_request (JInt (5 * MiB)))) (mkContext "request-0001")
  = (inr plan_generic_failure,
     [ plan_generic_line
         (Exception "ValueError" "invalid literal for int() with base 16") ]).
Proof.
  apply (request_id_that_is_not_hex_fails accepting sample_environ sample_str
           (post (plan_request (JInt (5 * MiB)))) (mkContext "request-0001")
           (plan_request (JInt (5 * MiB))) "uploads-bucket"
           (Exception "ValueError" "invalid literal for int() with base 16"));
    reflexivity.
Defined.

(** A fileSize that is a non-empty string, list or dict cannot be compared
    with the threshold: the valid request is answered with the generic 500
    after the [TypeError] is printed, and no store call is made. *)
Theorem unordered_file_size_fails
  (client : s3) (environ : list (string * string)) (builtin_str : json -> string)
  (ev : event) (ctx : context) (d : list (string * json))
  (bucket_name key : string) :
  is_options (httpMethod ev) = false ->
  json_loads_body (event_body ev) = inr (JObj d) ->
  truthy (field d "fileName") = true ->
  truthy (field d "fileType") = true ->
  environ_getitem environ "UPLOAD_BUCKET_NAME" = inr bucket_name ->
  PresignedUrl.object_key builtin_str ctx (field d "fileName") = inr key ->
  truthy (field d "fileSize") = true ->
  unordered (field d "fileSize") = true ->
  PresignedUrl.lambda_handler client environ builtin_str ev ctx
  = (inr plan_generic_failure,
     [ plan_generic_line
         (Exception "TypeError" "'>' not supported between these instances") ]).
Proof.
  intros Hm Hb Hn Ht He Hk Hs Hu.
  rewrite (plan_valid client environ builtin_str ev ctx d bucket_name key)
    by assumption.
  unfold plan_outcome, run, try_except, bind.
  rewrite (is_large_unordered _ Hs Hu). reflexivity.
Qed.

Lemma unordered_file_size_fails_witness :
  PresignedUrl.lambda_handler accepting sample_environ sample_str
    (post (plan_request (JStr "262144000"))) sample_context
  = (inr plan_generic_failure,
     [ plan_generic_line
         (Exception "TypeError" "'>' not supported between these instances") ]).
Proof.
  apply (unordered_file_size_fails accepting sample_environ sample_str
           (post (plan_request (JStr "262144000"))) sample_context
           (plan_request (JStr "262144000"))
           "uploads-bucket" "uploads/2368487920-video.mp4");
    reflexivity.
Defined.

(** A session is initiated only for a fileSize that is a number above the
    threshold: an int greater than 100 MiB, or a float whose value is.  A
    boolean, a zero, [None], an empty string never open a session. *)
Theorem session_only_above_threshold
  (client : s3) (environ : list (string * string)) (builtin_str : json -> string)
  (ev : event) (ctx : context) (d : list (string * json)) :
  json_loads_body (event_body ev) = inr (JObj d) ->
  filter is_create
    (snd (PresignedUrl.lambda_handler client environ builtin_str ev ctx)) <> [] ->
  (exists z, field d "fileSize" = JInt z /\ large_file_threshold < z)
  \/ (exists x, field d "fileSize" = JFloat x
                /\ float_gt_Z x large_file_threshold = true).
Proof.
  intros Hb Hcreate.
  destruct (plan_cases client environ builtin_str ev ctx)
    as [H | [H | [(e & Hc & H)
                  | [(d' & b & k & v & Hb' & Hl & Hv & H)
                     | (d' & b & k & v & Hb' & Hl & Hv & H)]]]];
    rewrite H in Hcreate.
  - exfalso. apply Hcreate. reflexivity.
  - exfalso. apply Hcreate. reflexivity.
  - exfalso. apply Hcreate. unfold plan_failure_line. rewrite Hc. reflexivity.
  - exfalso. apply Hcreate. rewrite single_run.
    destruct (client [] _) as [e | url]; [ destruct e | ]; reflexivity.
  - rewrite Hb in Hb'. inversion Hb'; subst d'.
    apply (is_large_truthy _ v); assumption.
Qed.

Lemma session_only_above_threshold_witness :
  (exists z, field (plan_request (JInt (250 * MiB))) "fileSize" = JInt z
             /\ large_file_threshold < z)
  \/ (exists x, field (plan_request (JInt (250 * MiB))) "fileSize" = JFloat x
                /\ float_gt_Z x large_file_threshold = true).
Proof.
  apply (session_only_above_threshold accepting sample_environ sample_str
           (post (plan_request (JInt (250 * MiB)))) sample_context
           (plan_request (JInt (250 * MiB)))).
  - reflexivity.
  - vm_compute. discriminate.
Defined.

(** When the presigned put cannot be made, a single-shot request is
    answered with a 500 chosen by the class of the exception - 'AWS service
    error' for a [ClientError], the generic failure for any other - after
    that one call and one printed line. *)
Theorem single_shot_signing_failure
  (client : s3) (environ : list (string * string)) (builtin_str : json -> string)
  (ev : event) (ctx : context) (d : list (string * json))
  (bucket_name key : string) (v : json) (e : exn) :
  is_options (httpMethod ev) = false ->
  json_loads_body (event_body ev) = inr (JObj d) ->
  truthy (field d "fileName") = true ->
  truthy (field d "fileType") = true ->
  environ_getitem environ "UPLOAD_BUCKET_NAME" = inr bucket_name ->
  PresignedUrl.object_key builtin_str ctx (field d "fileName") = inr key ->
  PresignedUrl.is_large (field d "fileSize") = inr v ->
  truthy v = false ->
  let c := put_object_url bucket_name key (field d "fileType") in
  client [] c = inl e ->
  PresignedUrl.lambda_handler client environ builtin_str ev ctx
  = (inr (plan_failure e), [ Call c (inl e); plan_failure_line e ])
  /\ (is_client_error e = true ->
      plan_failure e = error_response 500 "AWS service error")
  /\ (is_client_error e = false -> plan_failure e = plan_generic_failure).
Proof.
  intros Hm Hb Hn Ht He Hk Hl Hv c Hc.
  rewrite (plan_single client environ builtin_str ev ctx d bucket_name key v)
    by assumption.
  rewrite single_run. fold c. rewrite Hc.
  repeat split; unfold plan_failure; intros ->; reflexivity.
Qed.

Lemma single_shot_signing_failure_witness :
  PresignedUrl.lambda_handler denying sample_environ sample_str
    (post (plan_request (JInt (5 * MiB)))) sample_context
  = (inr (error_response 500 "AWS service error"),
     [ Call (put_object_url "uploads-bucket" "uploads/2368487920-video.mp4"
               (JStr "video/mp4"))
            (inl (ClientError "AccessDenied"));
       Print [Lit "AWS error: "; Exn (ClientError "AccessDenied")] ]).
Proof.
  apply (single_shot_signing_failure denying sample_environ sample_str
           (post (plan_request (JInt (5 * MiB)))) sample_context
           (plan_request (JInt (5 * MiB)))
           "uploads-bucket" "uploads/2368487920-video.mp4" (JBool false)
           (ClientError "AccessDenied")); reflexivity.
Defined.

(** When the session initiation fails, a multipart request is answered with
    the 500 of the exception's class after that one call and one printed
    line: nothing is presigned. *)
Theorem session_initiation_failure
  (client : s3) (environ : list (string * string)) (builtin_str : json -> string)
  (ev : event) (ctx : context) (d : list (string * json))
  (bucket_name key : string) (v : json) (e : exn) :
  is_options (httpMethod ev) = false ->
  json_loads_body (event_body ev) = inr (JObj d) ->
  truthy (field d "fileName") = true ->
  truthy (field d "fileType") = true ->
  environ_getitem environ "UPLOAD_BUCKET_NAME" = inr bucket_name ->
  PresignedUrl.object_key builtin_str ctx (field d "fileName") = inr key ->
  PresignedUrl.is_large (field d "fileSize") = inr v ->
  truthy v = true ->
  let create :=
    create_multipart_upload (JStr bucket_name) (JStr key) (field d "fileType") in
  client [] create = inl e ->
  PresignedUrl.lambda_handler client environ builtin_str ev ctx
  = (inr (plan_failure e), [ Call create (inl e); plan_failure_line e ]).
Proof.
  intros Hm Hb Hn Ht He Hk Hl Hv create Hc.
  rewrite (plan_session client environ builtin_str ev ctx d bucket_name key v)
    by assumption.
  unfold plan_outcome, run, try_except, PresignedUrl.multipart.
  unfold bind at 1. unfold call at 1. cbn [trace frame app]. fold create.
  rewrite Hc. destruct e; reflexivity.
Qed.

Lemma session_initiation_failure_witness :
  PresignedUrl.lambda_handler denying sample_environ sample_str
    (post (plan_request (JInt (250 * MiB)))) sample_context
  = (inr (error_response 500 "AWS service error"),
     [ Call (create_multipart_upload (JStr "uploads-bucket")
               (JStr "uploads/2368487920-video.mp4") (JStr "video/mp4"))
            (inl (ClientError "AccessDenied"));
       Print [Lit "AWS error: "; Exn (ClientError "AccessDenied")] ]).
Proof.
  apply (session_initiation_failure denying sample_environ sample_str
           (post (plan_request (JInt (250 * MiB)))) sample_context
           (plan_request (JInt (250 * MiB)))
           "uploads-bucket" "uploads/2368487920-video.mp4" (JBool true)
           (ClientError "AccessDenied")); reflexivity.
Defined.

(** The session is initiated before the number of parts is computed: for a
    fileSize above the threshold whose part count cannot be computed (an
    integer whose quotient is beyond the largest float, an infinite float),
    the planner initiates the session, then answers with the 500 of the
    exception; the session it opened is left as it is. *)
Theorem part_count_failure_follows_initiation
  (client : s3) (environ : list (string * string)) (builtin_str : json -> string)
  (ev : event) (ctx : context) (d : list (string * json))
  (bucket_name key : string) (v created upload_id : json) (e : exn) :
  is_options (httpMethod ev) = false ->
  json_loads_body (event_body ev) = inr (JObj d) ->
  truthy (field d "fileName") = true ->
  truthy (field d "fileType") = true ->
  environ_getitem environ "UPLOAD_BUCKET_NAME" = inr bucket_name ->
  PresignedUrl.object_key builtin_str ctx (field d "fileName") = inr key ->
  PresignedUrl.is_large (field d "fileSize") = inr v ->
  truthy v = true ->
  let create :=
    create_multipart_upload (JStr bucket_name) (JStr key) (field d "fileType") in
  client [] create = inr created ->
  py_getitem created "UploadId" = inr upload_id ->
  PresignedUrl.count_parts (field d "fileSize") = inl e ->
  PresignedUrl.lambda_handler client environ builtin_str ev ctx
  = (inr (plan_failure e), [ Call create (inr created); plan_failure_line e ]).
Proof.
  intros Hm Hb Hn Ht He Hk Hl Hv create Hc Hu Hcount.
  rewrite (plan_session client environ builtin_str ev ctx d bucket_name key v)
    by assumption.
  unfold plan_outcome, run, try_except, PresignedUrl.multipart.
  unfold bind at 1. unfold call at 1. cbn [trace frame app]. fold create.
  rewrite Hc. unfold bind at 1. rewrite Hu. cbn [eval ret].
  unfold bind at 1. rewrite Hcount. cbn [eval raise]. destruct e; reflexivity.
Qed.

Lemma part_count_failure_follows_initiation_witness :
  PresignedUrl.lambda_handler accepting sample_environ sample_str
    (post (plan_request (JFloat (S754_infinity false)))) sample_context
  = (inr plan_generic_failure,
     [ Call (create_multipart_upload (JStr "uploads-bucket")
               (JStr "uploads/2368487920-video.mp4") (JStr "video/mp4"))
            (inr (JObj [ ("UploadId", JStr "upload-1") ]));
       plan_generic_line
         (Exception "OverflowError" "cannot convert float infinity to integer") ]).
Proof.
  apply (part_count_failure_follows_initiation accepting sample_environ sample_str
           (post (plan_request (JFloat (S754_infinity false)))) sample_context
           (plan_request (JFloat (S754_infinity false)))
           "uploads-bucket" "uploads/2368487920-video.mp4" (JBool true)
           (JObj [ ("UploadId", JStr "upload-1") ]) (JStr "upload-1")
           (Exception "OverflowError" "cannot convert float infinity to integer"));
    reflexivity.
Defined.

(** When the signing of part [k] fails after the parts before it were
    signed, the planner stops there: its trace is the initiation, the [k - 1]
    signings that returned, the failed one and one printed line; the answer
    is the 500 of the exception and holds none of the URLs already made; the
    session is not aborted. *)
Theorem presign_failure_leaves_session_open
  (client : s3) (environ : list (string * string)) (builtin_str : json -> string)
  (ev : event) (ctx : context) (d : list (string * json))
  (bucket_name key : string) (z k : Z) (created upload_id : json) (e : exn) :
  is_options (httpMethod ev) = false ->
  json_loads_body (event_body ev) = inr (JObj d) ->
  truthy (field d "fileName") = true ->
  truthy (field d "fileType") = true ->
  field d "fileSize" = JInt z ->
  large_file_threshold < z <= 10 * 2 ^ 50 ->
  environ_getitem environ "UPLOAD_BUCKET_NAME" = inr bucket_name ->
  PresignedUrl.object_key builtin_str ctx (field d "fileName") = inr key ->
  let create :=
    create_multipart_upload (JStr bucket_name) (JStr key) (field d "fileType") in
  client [] create = inr created ->
  py_getitem created "UploadId" = inr upload_id ->
  1 <= k <= ceil_div z PresignedUrl.part_size ->
  (forall h pn, 1 <= pn < k ->
     exists url, client h (upload_part_url bucket_name key upload_id pn) = inr url) ->
  (forall h, client h (upload_part_url bucket_name key upload_id k) = inl e) ->
  exists t,
    PresignedUrl.lambda_handler client environ builtin_str ev ctx
    = (inr (plan_failure e),
       Call create (inr created)
       :: (t ++ [ Call (upload_part_url bucket_name key upload_id k) (inl e);
                  plan_failure_line e ])%list)
    /\ Z.of_nat (List.length t) = k - 1
    /\ Forall (is_upload_part_call bucket_name key upload_id) t
    /\ Forall returned t.
Proof.
  intros Hm Hb Hn Ht Hs Hz He Hk create Hc Hu Hkn Hok Hfail.
  assert (Hz0 : large_file_threshold = 104857600) by reflexivity.
  rewrite (plan_multipart client environ builtin_str ev ctx d bucket_name key z)
    by (assumption || lia).
  unfold plan_outcome, run, try_except, PresignedUrl.multipart.
  unfold bind at 1. unfold call at 1. cbn [trace frame app]. fold create.
  rewrite Hc. unfold bind at 1. rewrite Hu. cbn [eval ret].
  unfold bind at 1. rewrite count_parts_exact by lia. cbn [eval ret].
  unfold bind at 1.
  rewrite (py_range_split 1 k) by lia.
  rewrite for_in_app. unfold bind at 1.
  assert (Hprefix : forall h pn, In pn (py_range 1 k) ->
            exists url,
              client h (upload_part_url bucket_name key upload_id pn) = inr url).
  { intros h pn Hin. apply Hok. unfold py_range in Hin.
    apply in_map_iff in Hin. destruct Hin as (i & <- & Hi).
    apply in_seq in Hi. lia. }
  match goal with |- context [for_in (py_range 1 k) _ ?a ?w0] =>
    destruct (presign_loop_on client bucket_name key upload_id (py_range 1 k)
                Hprefix a w0) as (urls & t & Hrun & Hlen & Hall & Hret) end.
  rewrite Hrun. cbn [for_in]. unfold bind at 1.
  unfold PresignedUrl.presign_part at 1. unfold bind at 1, call.
  fold (upload_part_url bucket_name key upload_id k).
  cbn [trace frame]. rewrite Hfail.
  exists t. split; [ | split; [ | split; assumption ] ].
  - unfold plan_failure, plan_failure_line.
    destruct e; cbn [is_client_error];
      unfold PresignedUrl.on_client_error, PresignedUrl.on_exception, bind, print, ret;
      cbn [trace frame app]; rewrite <- app_assoc; reflexivity.
  - rewrite Hlen, py_range_length. lia.
Qed.

Lemma presign_failure_leaves_session_open_witness :
  exists t,
    PresignedUrl.lambda_handler (signing_until 3) sample_environ sample_str
      (post (plan_request (JInt (250 * MiB)))) sample_context
    = (inr plan_generic_failure,
       Call (create_multipart_upload (JStr "uploads-bucket")
               (JStr "uploads/2368487920-video.mp4") (JStr "video/mp4"))
            (inr (JObj [ ("UploadId", JStr "upload-1") ]))
       :: (t ++ [ Call (upload_part_url "uploads-bucket"
                          "uploads/2368487920-video.mp4" (JStr "upload-1") 3)
                       (inl (Exception "NoCredentialsError"
                               "Unable to locate credentials"));
                  plan_generic_line
                    (Exception "NoCredentialsError"
                       "Unable to locate credentials") ])%list)
    /\ Z.of_nat (List.length t) = 2.
Proof.
  destruct (presign_failure_leaves_session_open (signing_until 3) sample_environ
              sample_str (post (plan_request (JInt (250 * MiB)))) sample_context
              (plan_request (JInt (250 * MiB)))
              "uploads-bucket" "uploads/2368487920-video.mp4" (250 * MiB) 3
              (JObj [ ("UploadId", JStr "upload-1") ]) (JStr "upload-1")
              (Exception "NoCredentialsError" "Unable to locate credentials")
              eq_refl eq_refl eq_refl eq_refl eq_refl)
    as (t & Hrun & Hlen & _).
  - vm_compute. split; [ reflexivity | discriminate ].
  - reflexivity.
  - reflexivity.
  - reflexivity.
  - reflexivity.
  - vm_compute. split; discriminate.
  - intros h pn Hpn. exists (JStr "https://signed.example/url").
    cbn. replace (pn <? 3) with true by (symmetry; apply Z.ltb_lt; lia). reflexivity.
  - intros h. reflexivity.
  - exists t. split; [ exact Hrun | exact Hlen ].
Defined.

(** Up to 10 * 2^50 bytes the computed parts partition the file: all parts
    but the last are full parts of 10 MiB, at least the 5 MiB minimum of the
    store, and the last part is not empty and not larger than a part. *)
Theorem parts_partition_the_file (z : Z) :
  0 < z <= 10 * 2 ^ 50 ->
  exists n,
    PresignedUrl.count_parts (JInt z) = inr n
    /\ 1 <= n
    /\ (n - 1) * PresignedUrl.part_size + last_part_size z PresignedUrl.part_size n = z
    /\ 0 < last_part_size z PresignedUrl.part_size n <= PresignedUrl.part_size
    /\ minimum_part_size <= PresignedUrl.part_size.
Proof.
  intros Hz. exists (ceil_div z PresignedUrl.part_size).
  pose proof (ceil_div_bounds z ltac:(lia)) as Hb.
  split; [ apply count_parts_exact; exact Hz | ].
  unfold last_part_size.
  assert (Hp : PresignedUrl.part_size = 10485760) by reflexivity.
  assert (Hmin : minimum_part_size = 5242880) by reflexivity.
  rewrite Hp in *. rewrite Hmin. lia.
Qed.

Lemma parts_partition_the_file_witness :
  exists n,
    PresignedUrl.count_parts (JInt (104 * MiB)) = inr n
    /\ last_part_size (104 * MiB) PresignedUrl.part_size n = 4 * MiB.
Proof.
  destruct (parts_partition_the_file (104 * MiB)) as (n & Hn & _).
  - vm_compute. split; [ reflexivity | discriminate ].
  - exists n. split; [ exact Hn | ].
    assert (n = 11) as -> by (vm_compute in Hn; congruence). reflexivity.
Defined.

(** ** Strings *)

Lemma length_append s t :
  String.length (s ++ t) = (String.length s + String.length t)%nat.
Proof. induction s as [ | c s IH ]; cbn; [ reflexivity | rewrite IH; reflexivity ]. Qed.

Lemma append_cancel_r t s1 : forall s2, s1 ++ t = s2 ++ t -> s1 = s2.
Proof.
  induction s1 as [ | c s1 IH ]; intros [ | c' s2 ] H; cbn in H.
  - reflexivity.
  - exfalso. apply (f_equal String.length) in H. cbn in H. rewrite length_append in H. lia.
  - exfalso. apply (f_equal String.length) in H. cbn in H. rewrite length_append in H. lia.
  - inversion H; subst. f_equal. apply IH. assumption.
Qed.

Lemma str_of_int_inj n m : str_of_int n = str_of_int m -> n = m.
Proof.
  unfold str_of_int. intros H.
  assert (Hnil : forall z, Z.to_int z <> Decimal.Pos Decimal.Nil
                           /\ Z.to_int z <> Decimal.Neg Decimal.Nil).
  { intros [ | p | p ]; cbn; split; try discriminate;
      intros E; inversion E as [E']; apply (Unsigned.to_uint_nonnil p); exact E'. }
  apply (f_equal NilZero.int_of_string) in H.
  rewrite !NilZero.isi in H by apply Hnil.
  inversion H as [H']. apply to_int_inj. exact H'.
Qed.

Lemma rev_append_twice s : forall a b,
  rev_append (rev_append s a) b = rev_append a (s ++ b).
Proof.
  induction s as [ | c s IH ]; intros a b; cbn [rev_append String.append]; [ reflexivity | ].
  rewrite IH. reflexivity.
Qed.

Lemma append_empty s : s ++ "" = s.
Proof. induction s as [ | c s IH ]; cbn; [ | rewrite IH ]; reflexivity. Qed.

(** ** Base-16 digits *)

Lemma hex_value_bounds c d : hex_value c = Some d -> 0 <= d < 16.
Proof.
  unfold hex_value. set (n := Z.of_nat (nat_of_ascii c)).
  destruct ((48 <=? n) && (n <=? 57)) eqn:E1;
    [ intros H; inversion H; apply andb_true_iff in E1; lia | ].
  destruct ((97 <=? n) && (n <=? 102)) eqn:E2;
    [ intros H; inversion H; apply andb_true_iff in E2; lia | ].
  destruct ((65 <=? n) && (n <=? 70)) eqn:E3;
    [ intros H; inversion H; apply andb_true_iff in E3; lia | discriminate ].
Qed.

Lemma hex_digit_code c :
  is_hex_digit c = true ->
  48 <= Z.of_nat (nat_of_ascii c) <= 57
  \/ 97 <= Z.of_nat (nat_of_ascii c) <= 102
  \/ 65 <= Z.of_nat (nat_of_ascii c) <= 70.
Proof.
  unfold is_hex_digit, hex_value. set (n := Z.of_nat (nat_of_ascii c)). intros H.
  destruct ((48 <=? n) && (n <=? 57)) eqn:E1;
    [ apply andb_true_iff in E1; lia | ].
  destruct ((97 <=? n) && (n <=? 102)) eqn:E2;
    [ apply andb_true_iff in E2; lia | ].
  destruct ((65 <=? n) && (n <=? 70)) eqn:E3;
    [ apply andb_true_iff in E3; lia | discriminate ].
Qed.

Lemma hex_digit_not_space c : is_hex_digit c = true -> is_space c = false.
Proof.
  intros H. pose proof (hex_digit_code c H) as Hn.
  unfold is_space. set (n := Z.of_nat (nat_of_ascii c)) in *.
  repeat match goal with
         | |- context [?a <=? ?b] => destruct (Z.leb_spec a b)
         | |- context [?a =? ?b] => destruct (Z.eqb_spec a b)
         end; cbn; lia || reflexivity.
Qed.

Lemma hex_digit_is c x :
  is_hex_digit c = true -> is_hex_digit x = false -> (c =? x)%char = false.
Proof.
  intros Hc Hx. destruct (Ascii.eqb_spec c x) as [-> | ]; [ congruence | reflexivity ].
Qed.

Lemma lstrip_hex s : all_hex s = true -> lstrip s = s.
Proof.
  destruct s as [ | c s ]; [ reflexivity | ]. cbn [all_hex lstrip].
  intros H. apply andb_true_iff in H as [Hc _].
  rewrite (hex_digit_not_space c Hc). reflexivity.
Qed.

Lemma all_hex_rev_append s : forall a,
  all_hex s = true -> all_hex a = true -> all_hex (rev_append s a) = true.
Proof.
  induction s as [ | c s IH ]; intros a Hs Ha; cbn [rev_append]; [ exact Ha | ].
  cbn [all_hex] in Hs. apply andb_true_iff in Hs as [Hc Hs].
  apply IH; [ exact Hs | ]. cbn [all_hex]. rewrite Hc, Ha. reflexivity.
Qed.

Lemma strip_hex s : all_hex s = true -> strip s = s.
Proof.
  intros H. unfold strip. rewrite (lstrip_hex s H).
  rewrite lstrip_hex by (apply all_hex_rev_append; [ exact H | reflexivity ]).
  rewrite rev_append_twice. cbn [rev_append]. apply append_empty.
Qed.

Lemma scan16_hex s : forall acc after_digit,
  all_hex s = true -> (s <> "" \/ after_digit = true) -> 0 <= acc ->
  exists n, scan16 s acc after_digit = Some n
            /\ acc * 16 ^ Z.of_nat (String.length s) <= n
               < (acc + 1) * 16 ^ Z.of_nat (String.length s).
Proof.
  induction s as [ | c s IH ]; intros acc b Hs Hne Hacc.
  - destruct Hne as [Hne | ->]; [ congruence | ]. exists acc. cbn. split; [ reflexivity | lia ].
  - cbn [all_hex] in Hs. apply andb_true_iff in Hs as [Hc Hs].
    cbn [scan16]. rewrite (hex_digit_is c "_" Hc eq_refl).
    unfold is_hex_digit in Hc. destruct (hex_value c) as [dgt | ] eqn:Hd; [ | discriminate ].
    pose proof (hex_value_bounds c dgt Hd) as Hb.
    destruct (IH (16 * acc + dgt) true Hs (or_intror eq_refl) ltac:(lia))
      as (n & Hn & Hrange).
    exists n. split; [ exact Hn | ].
    cbn [String.length]. rewrite Nat2Z.inj_succ, Z.pow_succ_r by lia.
    assert (0 < 16 ^ Z.of_nat (String.length s)) by (apply Z.pow_pos_nonneg; lia).
    nia.
Qed.

Lemma unsigned16_hex s :
  all_hex s = true -> unsigned16 s = scan16 s 0 false.
Proof.
  destruct s as [ | c rest ]; [ reflexivity | ].
  cbn [all_hex]. intros H. apply andb_true_iff in H as [Hc Hr].
  destruct rest as [ | x rest ].
  - destruct c as [[] [] [] [] [] [] [] []]; reflexivity.
  - cbn [all_hex] in Hr. apply andb_true_iff in Hr as [Hx _].
    pose proof (hex_digit_is x "x" Hx eq_refl) as E1.
    pose proof (hex_digit_is x "X" Hx eq_refl) as E2.
    destruct c as [[] [] [] [] [] [] [] []]; try reflexivity.
    unfold unsigned16. rewrite E1, E2. reflexivity.
Qed.

Lemma int_base16_hex s :
  all_hex s = true -> s <> "" ->
  exists n, int_base16 s = inr n /\ 0 <= n < 16 ^ Z.of_nat (String.length s).
Proof.
  intros H Hne.
  destruct (scan16_hex s 0 false H (or_introl Hne) ltac:(lia)) as (n & Hn & Hrange).
  exists n. split; [ | lia ].
  unfold int_base16. rewrite (strip_hex s H).
  destruct s as [ | c rest ]; [ congruence | ].
  assert (Hc : is_hex_digit c = true)
    by (cbn [all_hex] in H; apply andb_true_iff in H; tauto).
  rewrite <- (unsigned16_hex _ H) in Hn.
  destruct c as [[] [] [] [] [] [] [] []];
    try (vm_compute in Hc; discriminate Hc); rewrite Hn; reflexivity.
Qed.

Lemma slice_to_length n s : (String.length (slice_to n s) <= n)%nat.
Proof.
  revert s. induction n as [ | n IH ]; intros [ | c s ]; cbn; try lia.
  specialize (IH s). lia.
Qed.

(** A request id whose first eight characters are base-16 digits, as those
    of a UUID are, always yields a key: [uploads/], the number those digits
    denote (below 2^32), a dash and the file name. *)
Theorem hex_request_id_yields_a_key
  (builtin_str : json -> string) (ctx : context) (file_name : json) :
  slice_to 8 (aws_request_id ctx) <> "" ->
  all_hex (slice_to 8 (aws_request_id ctx)) = true ->
  exists n,
    int_base16 (slice_to 8 (aws_request_id ctx)) = inr n
    /\ 0 <= n < 2 ^ 32
    /\ PresignedUrl.object_key builtin_str ctx file_name
       = inr ("uploads/" ++ str_of_int n ++ "-"
              ++ PresignedUrl.py_str builtin_str file_name).
Proof.
  intros Hne Hhex.
  destruct (int_base16_hex _ Hhex Hne) as (n & Hn & Hrange).
  exists n. split; [ exact Hn | ]. split.
  - pose proof (slice_to_length 8 (aws_request_id ctx)) as Hlen.
    assert (16 ^ Z.of_nat (String.length (slice_to 8 (aws_request_id ctx))) <= 16 ^ 8)
      by (apply Z.pow_le_mono_r; lia).
    change (2 ^ 32) with (16 ^ 8). lia.
  - unfold PresignedUrl.object_key. rewrite Hn. reflexivity.
Qed.

Lemma hex_request_id_yields_a_key_witness :
  exists n,
    int_base16 (slice_to 8 (aws_request_id sample_context)) = inr n
    /\ 0 <= n < 2 ^ 32
    /\ PresignedUrl.object_key sample_str sample_context (JStr "video.mp4")
       = inr ("uploads/" ++ str_of_int n ++ "-"
              ++ PresignedUrl.py_str sample_str (JStr "video.mp4")).
Proof.
  apply (hex_request_id_yields_a_key sample_str sample_context (JStr "video.mp4")).
  - discriminate.
  - reflexivity.
Defined.

(** For one file name, two invocations get the same key exactly when the
    first eight characters of their request ids denote the same number:
    the key tells apart every two requests whose prefixes differ in value,
    and only those. *)
Theorem keys_agree_iff_prefixes_agree
  (builtin_str : json -> string) (ctx1 ctx2 : context) (file_name : json)
  (n1 n2 : Z) :
  int_base16 (slice_to 8 (aws_request_id ctx1)) = inr n1 ->
  int_base16 (slice_to 8 (aws_request_id ctx2)) = inr n2 ->
  (PresignedUrl.object_key builtin_str ctx1 file_name
   = PresignedUrl.object_key builtin_str ctx2 file_name
   <-> n1 = n2).
Proof.
  intros H1 H2. unfold PresignedUrl.object_key. rewrite H1, H2. split.
  - intros H. inversion H as [H'].
    apply append_cancel_r in H'.
    apply str_of_int_inj. exact H'.
  - intros ->. reflexivity.
Qed.

Lemma keys_agree_iff_prefixes_agree_witness :
  PresignedUrl.object_key sample_str sample_context (JStr "video.mp4")
  = PresignedUrl.object_key sample_str (mkContext "8d2c41f1-6b1e-4c1a-9d57")
      (JStr "video.mp4")
  <-> 2368487920 = 2368487921.
Proof.
  apply (keys_agree_iff_prefixes_agree sample_str sample_context
           (mkContext "8d2c41f1-6b1e-4c1a-9d57") (JStr "video.mp4")
           2368487920 2368487921); reflexivity.
Defined.
